(** * sig_sharepoint_app.sharepoint_api: a shallow embedding

    The module wraps the Office365 SharePoint client.  Every method is a
    sequence of remote round trips ([execute_query]) glued together by
    [try ... except SharepointError] blocks, logging calls and a little string
    processing.  The embedding below keeps that shape: a state-and-exception
    monad over a [World] holding the remote sites, the local file system, the
    logger output and the trace of round trips that were issued. *)

From Stdlib Require Import String Ascii List Bool Arith Lia.
From stdpp Require Import gmap strings list fin_maps.
Import ListNotations.

Set Default Proof Using "Type".
Open Scope string_scope.
Open Scope list_scope.

(** ** Python runtime: exceptions and results *)

Module Py.

(** Exception classes the module can meet.  [SharepointError] is the class
    imported from [.errors]; it is the only class named by the handlers of
    this module.  [OtherError] stands for any class that is not an
    instance of it (transport errors of the SDK, interrupts, ...). *)
Inductive exn_class : Type :=
  | SharepointError
  | Exception_
  | AttributeError
  | FileNotFoundError
  | ValueError
  | KeyError
  | TypeError
  | IndexError
  | OtherError (name : string).

Record exn : Type := Exn { exn_cls : exn_class; exn_msg : string }.

Definition is_SharepointError (e : exn) : bool :=
  match exn_cls e with
  | SharepointError => true
  | _ => false
  end.

Inductive result (A : Type) : Type :=
  | Ok (a : A)
  | Raise (e : exn).
Arguments Ok {A} a.
Arguments Raise {A} e.

Definition raises {A} (r : result A) : Prop := exists e, r = Raise e.

(** Truthiness of [str] and of [bytes | None]. *)
Definition truthy (s : string) : bool :=
  match s with
  | EmptyString => false
  | _ => true
  end.

Definition bytes := list Byte.byte.

Definition truthy_bytes (b : option bytes) : bool :=
  match b with
  | Some (_ :: _) => true
  | _ => false
  end.

End Py.
Export Py.

(** ** Data model of the remote service *)

Record Folder : Type := mkFolder {
  folder_id : nat;
  folder_name : string
}.

(** A SharePoint list; document libraries are the lists created from the
    [DocumentLibrary] template.  [list_folders] are the children of its
    root folder. *)
Record DocList : Type := mkDocList {
  list_id : nat;
  list_title : string;
  list_description : string;
  list_template : nat;
  list_folders : list Folder
}.

(** [ListTemplateType.DocumentLibrary] *)
Definition DocumentLibrary_template : nat := 101.

(** A remote file handle: either fetched by its server-relative path or
    obtained from an upload into a folder. *)
Inductive File : Type :=
  | FileAt (server_relative_path : string)
  | FileIn (parent : nat) (name : string).

(** Round trips to the service, as [execute_query] issues them. *)
Inductive request : Type :=
  | ReqWebGet (url : string)
  | ReqSiteGet (url : string)
  | ReqListsFilter (url : string) (odata : string)
  | ReqListsAdd (url : string) (title description : string) (template : nat)
  | ReqFoldersFilter (url : string) (lst : nat) (odata : string)
  | ReqFoldersAdd (url : string) (lst : nat) (name : string)
  | ReqFileGet (url : string) (path : string)
  | ReqFolderUpload (url : string) (folder : nat) (name : string) (content : bytes)
  | ReqUploadSession (url : string) (relative_url : string) (path : string) (chunk : N)
  | ReqListsGet (url : string)
  | ReqListDelete (url : string) (lst : nat)
  | ReqFileDownload (url : string) (file : File).

Inductive level : Type := DEBUG | INFO | ERROR.

(** The world a call runs in.  [faults] is the schedule of the service's
    answers: each round trip consumes its head, [Some e] making that round
    trip raise [e]; an exhausted schedule answers every request. *)
Record World : Type := mkWorld {
  remote : gmap string (list DocList);
  local_files : gmap string bytes;
  faults : list (option exn);
  requests : list request;
  log : list (level * string)
}.

Definition site_lists (w : World) (url : string) : list DocList :=
  default [] (remote w !! url).

Definition set_site_lists (url : string) (ls : list DocList) (w : World) : World :=
  mkWorld (<[url := ls]> (remote w)) (local_files w) (faults w) (requests w) (log w).

(** ** The state-and-exception monad *)

Definition M (A : Type) : Type := World -> result A * World.

Definition ret {A} (a : A) : M A := fun w => (Ok a, w).

Definition raise {A} (e : exn) : M A := fun w => (Raise e, w).

Definition bind {A B} (m : M A) (k : A -> M B) : M B :=
  fun w =>
    match m w with
    | (Ok a, w') => k a w'
    | (Raise e, w') => (Raise e, w')
    end.

(** [try: body except SharepointError as error: handler] *)
Definition try_except_SharepointError {A} (body : M A) (handler : exn -> M A) : M A :=
  fun w =>
    match body w with
    | (Ok a, w') => (Ok a, w')
    | (Raise e, w') =>
        if is_SharepointError e then handler e w' else (Raise e, w')
    end.

Declare Scope py_scope.
Delimit Scope py_scope with py.
Notation "'let*' x ':=' c 'in' k" := (bind c (fun x => k))
  (at level 10, x name, c at level 100, k at level 200) : py_scope.
Notation "'do*' c 'in' k" := (bind c (fun _ => k))
  (at level 10, c at level 100, k at level 200) : py_scope.
Open Scope py_scope.

Definition logger (lv : level) (msg : string) : M unit :=
  fun w => (Ok tt, mkWorld (remote w) (local_files w) (faults w) (requests w)
                           (log w ++ [(lv, msg)])).

(** One round trip.  The request is recorded whether or not it is
    answered. *)
Definition execute_query (r : request) : M unit :=
  fun w =>
    let sent fs := mkWorld (remote w) (local_files w) fs (requests w ++ [r]) (log w) in
    match faults w with
    | Some e :: fs => (Raise e, sent fs)
    | None :: fs => (Ok tt, sent fs)
    | [] => (Ok tt, sent [])
    end.

Definition get_world : M World := fun w => (Ok w, w).
Definition modify_world (f : World -> World) : M unit := fun w => (Ok tt, f w).

(** ** Local files and the secrets file *)

(** Values [json.load] can return, as far as the module inspects them. *)
#[local] Set Warnings "-register-all".
Inductive json : Type :=
  | JStr (s : string)
  | JObj (fields : list (string * json))
  | JNull.

(** Subscription [j[k]] with a string key. *)
Definition getitem (j : json) (k : string) : M json :=
  match j with
  | JObj fields =>
      match List.find (fun kv => String.eqb (fst kv) k) fields with
      | Some kv => ret (snd kv)
      | None => raise (Exn KeyError k)
      end
  | JStr _ => raise (Exn TypeError "string indices must be integers")
  | JNull => raise (Exn TypeError "'NoneType' object is not subscriptable")
  end.

(** [open(path, "rb").read()] *)
Definition read_file (path : string) : M bytes :=
  fun w =>
    match local_files w !! path with
    | Some b => (Ok b, w)
    | None => (Raise (Exn FileNotFoundError path), w)
    end.

(** [os.path.exists] and [os.path.getsize] *)
Definition os_path_exists (path : string) : M bool :=
  fun w => (Ok (bool_decide (is_Some (local_files w !! path))), w).

Definition os_path_getsize (path : string) : M nat :=
  fun w =>
    match local_files w !! path with
    | Some b => (Ok (length b), w)
    | None => (Raise (Exn FileNotFoundError path), w)
    end.

(** ** Session handles *)

Record ClientContext : Type := mkClientContext {
  ctx_url : string;
  ctx_client_id : json;
  ctx_client_secret : json
}.

Record Web : Type := mkWeb { web_url : string }.

Record SharepointAPI : Type := mkSharepointAPI {
  site : string;
  server_url : string;
  complete_url : string;
  ctx : ClientContext;
  web : Web
}.

Definition missing_credentials_msg : string :=
  "Please provide client secrets information as a secrets.json or using the inputs                              client_secret and client_id".

Section Client.

(** [json.load]: the parser of the standard library, [None] on malformed
    input. *)
Variable json_load : bytes -> option json.

(** *** class SharepointClientAccess *)

Definition get_sharepoint_ctx (complete_url : string) (client_id client_secret : json)
  : M (ClientContext * Web) :=
  let url := complete_url in
  let ctx := mkClientContext url client_id client_secret in
  let* web := (do* execute_query (ReqWebGet url) in ret (mkWeb url)) in
  do* try_except_SharepointError
        (execute_query (ReqSiteGet url))
        (fun _ => logger ERROR "Unable to execute web queries") in
  ret (ctx, web).

Definition read_secrets (root_cred_path site : string) : M (json * json) :=
  let* file := read_file root_cred_path in
  let* data :=
    match json_load file with
    | Some j => ret j
    | None => raise (Exn ValueError "JSONDecodeError")
    end in
  let* sites := getitem data "sites" in
  let* entry := getitem sites site in
  let* client_id := getitem entry "username" in
  let* sites := getitem data "sites" in
  let* entry := getitem sites site in
  let* client_secret := getitem entry "password" in
  ret (client_id, client_secret).

Definition SharepointClientAccess_init
    (site server_url root_cred_path client_id client_secret : string) : M SharepointAPI :=
  let complete_url := server_url +:+ "/sites/" +:+ site in
  let* cred :=
    if truthy root_cred_path then read_secrets root_cred_path site
    else if negb (truthy client_id) || negb (truthy client_secret) then
      raise (Exn Exception_ missing_credentials_msg)
    else ret (JStr client_id, JStr client_secret) in
  let* cw := get_sharepoint_ctx complete_url (fst cred) (snd cred) in
  ret (mkSharepointAPI site server_url complete_url (fst cw) (snd cw)).

(** *** class SharepointAPI(SharepointClientAccess) *)

Definition SharepointAPI_init
    (site server_url root_cred_path client_id client_secret : string) : M SharepointAPI :=
  SharepointClientAccess_init site server_url root_cred_path client_id client_secret.

(** [str.split(sep)] for a non-empty separator: a left-to-right scan for
    non-overlapping occurrences.  [skip] counts the characters of the
    occurrence just found that are still to be passed over; [cur] is the
    piece being accumulated. *)
Fixpoint split_go (sep : string) (skip : nat) (cur s : string) : list string :=
  match s with
  | EmptyString => [cur]
  | String c s' =>
      match skip with
      | S k => split_go sep k cur s'
      | O =>
          if String.prefix sep s
          then cur :: split_go sep (String.length sep - 1) "" s'
          else split_go sep 0 (cur +:+ String c "") s'
      end
  end.

Definition str_split (s sep : string) : M (list string) :=
  if truthy sep then ret (split_go sep 0 "" s)
  else raise (Exn ValueError "empty separator").

(** [parts[-1]]; [str.split] never returns an empty list. *)
Definition last_part (parts : list string) : string := List.last parts "".

Definition os_path_basename (path : string) : string :=
  last_part (split_go "/" 0 "" path).

Definition get_file (self : SharepointAPI) (file_url : string) : M File :=
  let* parts := str_split file_url (server_url self) in
  let file_url := last_part parts in
  do* execute_query (ReqFileGet (web_url (web self)) file_url) in
  ret (FileAt file_url).

(** *** from_url *)

(** [django.conf.settings], as far as the module reads it. *)
Record Settings : Type := mkSettings {
  SHAREPOINT_SITE : string;
  SHAREPOINT_SERVER_URL : string;
  SHAREPOINT_CLIENT_ID : string;
  SHAREPOINT_CLIENT_SECRET : string
}.

Variable settings : Settings.

(** [re.compile(SHAREPOINT_URL_PATTERN).match]: the constant lives in
    [apps.core.global_constants]; a successful match is given by its named
    groups. *)
Variable SHAREPOINT_URL_PATTERN_match : string -> option (list (string * string)).

Definition group (matches : list (string * string)) (name : string) : M string :=
  match List.find (fun kv => String.eqb (fst kv) name) matches with
  | Some kv => ret (snd kv)
  | None => raise (Exn IndexError "no such group")
  end.

(** The classmethod receives the class it builds; [cls site server_url
    client_id client_secret] is the constructor call with these keywords. *)
Definition from_url {T : Type} (cls : string -> string -> string -> string -> M T)
    (url : string) : M T :=
  let* built :=
    try_except_SharepointError
      (match SHAREPOINT_URL_PATTERN_match url with
       | Some matches =>
           let* site := group matches "site_name" in
           let* server_url := group matches "server_url" in
           let* inst := cls site server_url (SHAREPOINT_CLIENT_ID settings)
                            (SHAREPOINT_CLIENT_SECRET settings) in
           ret (Some inst)
       | None => ret None
       end)
      (fun error =>
         do* logger DEBUG
               ("The current location does not contain a site name using the standard site :"
                +:+ exn_msg error) in
         ret None) in
  match built with
  | Some inst => ret inst
  | None =>
      cls (SHAREPOINT_SITE settings) (SHAREPOINT_SERVER_URL settings)
          (SHAREPOINT_CLIENT_ID settings) (SHAREPOINT_CLIENT_SECRET settings)
  end.

Definition SharepointAPI_cls (site server_url client_id client_secret : string)
  : M SharepointAPI :=
  SharepointAPI_init site server_url "" client_id client_secret.

(** *** Remote collections *)

(** The OData expression [f"{field} eq '{value}'"]. *)
Definition odata_eq (field value : string) : string :=
  field +:+ " eq '" +:+ value +:+ "'".

Definition title_is (name : string) (l : DocList) : bool :=
  String.eqb (list_title l) name.

Definition name_is (name : string) (f : Folder) : bool :=
  String.eqb (folder_name f) name.

Definition find_list (id : nat) (ls : list DocList) : option DocList :=
  List.find (fun l => Nat.eqb (list_id l) id) ls.

Definition folders_of (w : World) (url : string) (id : nat) : list Folder :=
  match find_list id (site_lists w url) with
  | Some l => list_folders l
  | None => []
  end.

Definition add_folder (f : Folder) (l : DocList) : DocList :=
  mkDocList (list_id l) (list_title l) (list_description l) (list_template l)
            (list_folders l ++ [f]).

(** Apply [g] to the list the service addresses by [id]. *)
Fixpoint update_list (id : nat) (g : DocList -> DocList) (ls : list DocList)
  : list DocList :=
  match ls with
  | [] => []
  | l :: ls' =>
      if Nat.eqb (list_id l) id then g l :: ls' else l :: update_list id g ls'
  end.

(** Identifiers handed out by the service are new within the site. *)
Definition max_id (ls : list DocList) : nat :=
  list_max (List.map (fun l =>
              Nat.max (list_id l) (list_max (List.map folder_id (list_folders l)))) ls).

Definition fresh_id (ls : list DocList) : nat := S (max_id ls).

(** [web.lists.filter(f"Title eq '{name}'").get().execute_query()] *)
Definition lists_filter_title (url name : string) : M (list DocList) :=
  do* execute_query (ReqListsFilter url (odata_eq "Title" name)) in
  let* w := get_world in
  ret (List.filter (title_is name) (site_lists w url)).

(** [web.lists.add(list_properties).execute_query()] *)
Definition lists_add (url title description : string) (template : nat) : M DocList :=
  do* execute_query (ReqListsAdd url title description template) in
  let* w := get_world in
  let l := mkDocList (fresh_id (site_lists w url)) title description template [] in
  do* modify_world (set_site_lists url (site_lists w url ++ [l])) in
  ret l.

(** [lst.root_folder.folders.filter(f"Name eq '{name}'").get().execute_query()] *)
Definition folders_filter_name (url : string) (lst : DocList) (name : string)
  : M (list Folder) :=
  do* execute_query (ReqFoldersFilter url (list_id lst) (odata_eq "Name" name)) in
  let* w := get_world in
  ret (List.filter (name_is name) (folders_of w url (list_id lst))).

(** [lst.root_folder.folders.add(name).execute_query()] *)
Definition folders_add (url : string) (lst : DocList) (name : string) : M Folder :=
  do* execute_query (ReqFoldersAdd url (list_id lst) name) in
  let* w := get_world in
  let f := mkFolder (fresh_id (site_lists w url)) name in
  do* modify_world
        (set_site_lists url (update_list (list_id lst) (add_folder f) (site_lists w url))) in
  ret f.

(** Attribute access [.root_folder] on what [get_document_library_from_name]
    returned. *)
Definition getattr_root_folder (o : option DocList) : M DocList :=
  match o with
  | Some l => ret l
  | None =>
      raise (Exn AttributeError "'NoneType' object has no attribute 'root_folder'")
  end.

(** *** Resource lookup and creation *)

Definition get_document_library_from_name (self : SharepointAPI)
    (document_library_name : string) : M (option DocList) :=
  let* lists := lists_filter_title (web_url (web self)) document_library_name in
  ret (if Nat.eqb (length lists) 1 then nth_error lists 0 else None).

Definition find_folder (self : SharepointAPI) (document_library_name folder_name : string)
  : M (option Folder) :=
  let* lst := get_document_library_from_name self document_library_name in
  let* lst := getattr_root_folder lst in
  let* result := folders_filter_name (web_url (web self)) lst folder_name in
  if Nat.eqb (length result) 1 then ret (nth_error result 0) else ret None.

Definition create_folder (self : SharepointAPI) (document_library_name folder_name : string)
  : M Folder :=
  let* folder := find_folder self document_library_name folder_name in
  match folder with
  | Some f => ret f
  | None =>
      let* lst := get_document_library_from_name self document_library_name in
      let* lst := getattr_root_folder lst in
      folders_add (web_url (web self)) lst folder_name
  end.

Definition create_document_library (self : SharepointAPI)
    (document_library_name description : string) : M DocList :=
  let* element := get_document_library_from_name self document_library_name in
  match element with
  | Some e => ret e
  | None =>
      lists_add (web_url (web self)) document_library_name description
                DocumentLibrary_template
  end.

(** *** Transfers *)

Definition need_content_msg : string :=
  "--- Need filename/ file_content when passing bytes to be uploaded ---".

(** [target_folder.upload_file(file_name, file_content)] followed by
    [self.ctx.execute_query()]. *)
Definition folder_upload_file (url : string) (target_folder : Folder)
    (file_name : string) (file_content : bytes) : M File :=
  do* execute_query (ReqFolderUpload url (folder_id target_folder) file_name file_content) in
  ret (FileIn (folder_id target_folder) file_name).

Definition upload_file (self : SharepointAPI)
    (document_library_name root_folder file_path : string)
    (file_content : option bytes) (file_name : string) : M (option File) :=
  try_except_SharepointError
    (let* found := os_path_exists file_path in
     let* named :=
       if found : bool then
         let file_name :=
           if negb (truthy file_name) then os_path_basename file_path else file_name in
         let* file_content := read_file file_path in
         ret (file_name, file_content)
       else if negb (truthy_bytes file_content) then
         raise (Exn SharepointError need_content_msg)
       else ret (file_name, default [] file_content) in
     let* target_folder := create_folder self document_library_name root_folder in
     let* target_file :=
       folder_upload_file (ctx_url (ctx self)) target_folder (fst named) (snd named) in
     ret (Some target_file))
    (fun error =>
       do* logger ERROR ("Unable to upload file due to error: " +:+ exn_msg error) in
       ret None).

(** [target_file.resource_url] of the upload session's result, a value of
    the SDK. *)
Variable resource_url : string -> string -> string.

(** The progress callback only prints and is left out; the chunked session
    is one guarded round trip of the SDK. *)
Definition upload_large_file (self : SharepointAPI)
    (document_libary_name root_folder file_path : string) : M bool :=
  let size_chunk := 1000000%N in
  let* file_size := os_path_getsize file_path in
  let relative_url := document_libary_name +:+ "/" +:+ root_folder in
  try_except_SharepointError
    (do* execute_query
           (ReqUploadSession (ctx_url (ctx self)) relative_url file_path size_chunk) in
     do* logger INFO ("File " +:+ resource_url relative_url file_path
                      +:+ " has been uploaded successfully") in
     ret true)
    (fun error =>
       do* logger ERROR (" --- Error while uploading: " +:+ exn_msg error +:+ " ---") in
       ret false).

End Client.

(** ** Sample configuration and worlds *)

Module Samples.

(** Modelled from the spec: [SHAREPOINT_URL_PATTERN] is a constant of
    [apps.core.global_constants], of which the spec says only that it has
    the named groups [site_name] and [server_url].  This instance reads
    [(?P<server_url>https://[^/]+)/sites/(?P<site_name>[^/]+)]. *)
Fixpoint span_no_slash (s : string) : string * string :=
  match s with
  | EmptyString => ("", "")
  | String c s' =>
      if Ascii.eqb c "/" then ("", s)
      else let (a, b) := span_no_slash s' in (String c a, b)
  end.

Definition strip_prefix (p s : string) : option string :=
  if String.prefix p s
  then Some (String.substring (String.length p) (String.length s - String.length p) s)
  else None.

Definition sample_pattern_match (url : string) : option (list (string * string)) :=
  match strip_prefix "https://" url with
  | None => None
  | Some rest =>
      let (host, rest) := span_no_slash rest in
      match strip_prefix "/sites/" rest with
      | None => None
      | Some rest =>
          let (site_name, _) := span_no_slash rest in
          if truthy host && truthy site_name
          then Some [("server_url", "https://" +:+ host); ("site_name", site_name)]
          else None
      end
  end.

Definition sample_settings : Settings :=
  mkSettings "Home" "https://intranet.example" "app-id" "app-secret".

Definition no_json (_ : bytes) : option json := None.

Definition no_resource_url (_ _ : string) : string := "".

Definition contoso : string := "https://contoso.example/sites/Engineering".

Definition api0 : SharepointAPI :=
  mkSharepointAPI "Engineering" "https://contoso.example" contoso
    (mkClientContext contoso (JStr "app-id") (JStr "app-secret"))
    (mkWeb contoso).

Definition docs : DocList :=
  mkDocList 1 "Documents" "" DocumentLibrary_template [mkFolder 2 "reports"].

Definition archive (id : nat) : DocList :=
  mkDocList id "Archive" "" DocumentLibrary_template [].

Definition twins : DocList :=
  mkDocList 7 "Twins" "" DocumentLibrary_template [mkFolder 8 "a"; mkFolder 9 "a"].

Definition world_of (ls : list DocList) (fs : list (option exn)) : World :=
  mkWorld {[ contoso := ls ]} {[ "/tmp/report.csv" := [Byte.x61; Byte.x62] ]} fs [] [].

Definition w0 : World := world_of [docs; archive 3; archive 4; twins] [].

(** The site object cannot be fetched: once with the class the handler
    names, once with a transport error of another class. *)
Definition w_site_refused : World :=
  world_of [docs] [None; Some (Exn SharepointError "503 Service Unavailable")].

Definition w_site_dropped : World :=
  world_of [docs] [None; Some (Exn (OtherError "ConnectionError") "connection reset")].

Definition w_web_refused : World :=
  world_of [docs] [Some (Exn (OtherError "ClientRequestException") "401 Unauthorized")].

Definition engineering_url : string :=
  "https://contoso.example/sites/Engineering/Shared Documents/plan.docx".

Definition mirrored_url : string :=
  "https://mirror.example/fetch?u=https://contoso.example/sites/Engineering/plan.docx".

End Samples.


(** ** Vocabulary of the statements *)

(** The answer the service will give to the next round trip. *)
Definition next_fault (w : World) : option exn :=
  match faults w with
  | Some e :: _ => Some e
  | _ => None
  end.

(** The world once the round trip [r] has been made. *)
Definition sent (r : request) (w : World) : World :=
  mkWorld (remote w) (local_files w) (tl (faults w)) (requests w ++ [r]) (log w).

Definition logged (lv : level) (msg : string) (w : World) : World :=
  mkWorld (remote w) (local_files w) (faults w) (requests w) (log w ++ [(lv, msg)]).

(** Every round trip still to come is answered. *)
Definition reliable (w : World) : Prop := Forall (fun a => a = None) (faults w).

(** [occurs sep s]: [sep] is a substring of [s]. *)
Fixpoint occurs (sep s : string) : bool :=
  String.prefix sep s ||
  match s with
  | EmptyString => false
  | String _ s' => occurs sep s'
  end.

(** Following the spec's words for get_file: the leading [prefix] removed
    when the string starts with it, the string unchanged otherwise. *)
Definition remove_leading (prefix s : string) : string :=
  if String.prefix prefix s
  then String.substring (String.length prefix) (String.length s - String.length prefix) s
  else s.

(** [matches.group(name)] as a partial function. *)
Definition named_group (matches : list (string * string)) (name : string)
  : option string :=
  snd <$> List.find (fun kv => String.eqb (fst kv) name) matches.

(** ** The remaining methods of SharepointAPI *)

Section Listing.

(** [str.lower()].  The letters A to Z are lowered by [str_lower]; what
    [str.lower] does to the other letters is a matter of the Unicode tables
    of the interpreter and is the parameter [lower_non_ascii], which is
    applied to the text whose ASCII letters are already lowered. *)
Definition ascii_lower (c : ascii) : ascii :=
  let n := nat_of_ascii c in
  if (65 <=? n)%nat && (n <=? 90)%nat then ascii_of_nat (n + 32) else c.

Fixpoint str_lower (s : string) : string :=
  match s with
  | EmptyString => EmptyString
  | String c s' => String (ascii_lower c) (str_lower s')
  end.

Variable lower_non_ascii : string -> string.

Definition py_lower (s : string) : string := lower_non_ascii (str_lower s).

(** [name.lower() in folder.title.lower()] *)
Definition title_contains (name : string) (l : DocList) : bool :=
  occurs (py_lower name) (py_lower (list_title l)).

(** [web.lists.get().execute_query()] *)
Definition lists_get (url : string) : M (list DocList) :=
  do* execute_query (ReqListsGet url) in
  let* w := get_world in
  ret (site_lists w url).

(** The [for folder in folders] loop of get_list_of_folders: [acc] is the
    list [_] built so far, [folders] the whole collection, which replaces
    it at the first iteration when no name is given. *)
Fixpoint folders_loop (name : string) (folders rest acc : list DocList)
  : list DocList :=
  match rest with
  | [] => acc
  | folder :: rest' =>
      if truthy name then
        if title_contains name folder
        then folders_loop name folders rest' (acc ++ [folder])
        else folders_loop name folders rest' acc
      else folders
  end.

(** The handler ends without a [return]: the call then yields [None]. *)
Definition get_list_of_folders (self : SharepointAPI) (name : string)
  : M (option (list DocList)) :=
  try_except_SharepointError
    (let* folders := lists_get (ctx_url (ctx self)) in
     ret (Some (folders_loop name folders folders [])))
    (fun error =>
       do* logger ERROR (" --- Unable to access folder items: " +:+ exn_msg error +:+ " ---") in
       ret None).

Definition get_ctx_document_libraries (self : SharepointAPI) : M (list DocList) :=
  lists_get (web_url (web self)).

(** Remove the list the service addresses by [id]. *)
Fixpoint remove_list (id : nat) (ls : list DocList) : list DocList :=
  match ls with
  | [] => []
  | l :: ls' => if Nat.eqb (list_id l) id then ls' else l :: remove_list id ls'
  end.

(** [element.delete_object().execute_query()] *)
Definition list_delete_object (url : string) (element : DocList) : M unit :=
  do* execute_query (ReqListDelete url (list_id element)) in
  let* w := get_world in
  modify_world (set_site_lists url (remove_list (list_id element) (site_lists w url))).

Definition delete_document_library (self : SharepointAPI)
    (document_library_name : string) : M unit :=
  let* element := get_document_library_from_name self document_library_name in
  match element with
  | Some e => list_delete_object (web_url (web self)) e
  | None => ret tt
  end.

(** Writing a local file. *)
Definition write_local (path : string) (b : bytes) (w : World) : World :=
  mkWorld (remote w) (<[path := b]> (local_files w)) (faults w) (requests w) (log w).

(** The [OSError] with which the file system can refuse to open a path
    for writing, and the exception raised for it. *)
Inductive os_error : Type :=
  | NoSuchDirectory
  | IsADirectory
  | PermissionDenied.

Definition os_exn (err : os_error) (path : string) : exn :=
  match err with
  | NoSuchDirectory => Exn FileNotFoundError path
  | IsADirectory => Exn (OtherError "IsADirectoryError") path
  | PermissionDenied => Exn (OtherError "PermissionError") path
  end.

(** What the file system answers when [path] is opened for writing:
    [None] when the file can be created or truncated. *)
Variable open_refusal : string -> option os_error.

(** [open(path, "wb")]: the empty path names no file; a path the file
    system refuses raises its [OSError] and nothing is created; otherwise
    the file is created or truncated. *)
Definition open_wb (path : string) : M unit :=
  if truthy path then
    match open_refusal path with
    | Some err => raise (os_exn err path)
    | None => modify_world (write_local path [])
    end
  else raise (Exn FileNotFoundError path).

(** The bytes the service holds for a file of a site. *)
Variable remote_content : string -> File -> bytes.

(** [file.download(local).execute_query()]: the content is written once
    the round trip is answered. *)
Definition file_download (url : string) (file : File) (download_path : string)
  : M File :=
  do* execute_query (ReqFileDownload url file) in
  do* modify_world (write_local download_path (remote_content url file)) in
  ret file.

Definition download_file (self : SharepointAPI) (file_url download_path : string)
  : M (option File) :=
  try_except_SharepointError
    (do* open_wb download_path in
     let* file := get_file self file_url in
     let* local_file := file_download (web_url (web self)) file download_path in
     do* logger INFO ("[Ok] file has been downloaded: " +:+ download_path) in
     ret (Some local_file))
    (fun error =>
       do* logger ERROR ("--- Error with download: " +:+ exn_msg error +:+ " ---") in
       ret None).

End Listing.

(** A library after a call that added at most one folder of the given
    name under its root and changed nothing else of it. *)
Definition grown_by (name : string) (l l' : DocList) : Prop :=
  list_id l' = list_id l /\ list_title l' = list_title l /\
  list_description l' = list_description l /\ list_template l' = list_template l /\
  (list_folders l' = list_folders l \/
   exists f, folder_name f = name /\ list_folders l' = list_folders l ++ [f]).

(** The number of folders under the roots of the libraries of a site. *)
Definition folder_count (ls : list DocList) : nat :=
  list_sum (List.map (fun l => length (list_folders l)) ls).

(** A session whose handles are bound to its own complete_url, itself
    derived from server_url and site. *)
Definition bound_session (s : SharepointAPI) : Prop :=
  complete_url s = server_url s +:+ "/sites/" +:+ site s /\
  ctx_url (ctx s) = complete_url s /\
  web_url (web s) = complete_url s.

(** [j[k]] as a partial function, and the pair the secrets file holds
    for a site. *)
Definition json_field (j : json) (k : string) : option json :=
  match j with
  | JObj fields => snd <$> List.find (fun kv => String.eqb (fst kv) k) fields
  | _ => None
  end.

Definition secrets_entry (data : json) (site : string) : option (json * json) :=
  match json_field data "sites" with
  | Some sites =>
      match json_field sites site with
      | Some entry =>
          match json_field entry "username", json_field entry "password" with
          | Some user, Some password => Some (user, password)
          | _, _ => None
          end
      | None => None
      end
  | None => None
  end.

(** The session a successful construction returns. *)
Definition session_for (site server_url : string) (client_id client_secret : json)
  : SharepointAPI :=
  let url := server_url +:+ "/sites/" +:+ site in
  mkSharepointAPI site server_url url (mkClientContext url client_id client_secret)
                  (mkWeb url).

(** ** Further sample data *)

Module MoreSamples.

Import Samples.

Definition secrets_path : string := "/etc/sharepoint/secrets.json".

(** The content of the sample secrets file stands for the JSON text of
    [secrets_json]: the sample loader maps the one to the other. *)
Definition secrets_bytes : bytes := [Byte.x7b; Byte.x2e; Byte.x2e; Byte.x2e; Byte.x7d].

Definition secrets_json : json :=
  JObj [("sites",
         JObj [("Engineering",
                JObj [("username", JStr "file-id"); ("password", JStr "file-secret")])])].

Definition sample_json_load (b : bytes) : option json :=
  match b with
  | [Byte.x7b; Byte.x2e; Byte.x2e; Byte.x2e; Byte.x7d] => Some secrets_json
  | _ => None
  end.

Definition w_secrets : World :=
  mkWorld {[ contoso := [docs] ]} {[ secrets_path := secrets_bytes ]} [] [] [].

Definition unconfigured_settings : Settings :=
  mkSettings "Home" "https://intranet.example" "app-id" "".

Definition sample_remote_content (_ : string) (_ : File) : bytes :=
  [Byte.x68; Byte.x69].

Definition titled (id : nat) (title : string) : DocList :=
  mkDocList id title "" DocumentLibrary_template [].

Definition w_listing : World :=
  world_of [titled 1 "Documents"; titled 2 "Archive"; titled 3 "Docusign"] [].

Definition w_refused : World :=
  world_of [docs] [Some (Exn SharepointError "503 Service Unavailable")].

Definition report_path : string := "/tmp/report.csv".

(** The sample titles and names are ASCII text, which [str.lower] changes
    in its letters A to Z only. *)
Definition keep_text (s : string) : string := s.

Definition missing_dir_path : string := "/no/such/dir/out.bin".

Definition sample_open_refusal (path : string) : option os_error :=
  if String.eqb path missing_dir_path then Some NoSuchDirectory else None.

End MoreSamples.

(** ** Round trips *)

Lemma execute_query_answered r w :
  next_fault w = None -> execute_query r w = (Ok tt, sent r w).
Proof.
  unfold next_fault, execute_query, sent.
  destruct (faults w) as [|[e|] fs]; simpl; intros H; try discriminate; reflexivity.
Qed.

Lemma execute_query_failed r w e :
  next_fault w = Some e -> execute_query r w = (Raise e, sent r w).
Proof.
  unfold next_fault, execute_query, sent.
  destruct (faults w) as [|[e'|] fs]; simpl; intros H; try discriminate.
  congruence.
Qed.

Lemma reliable_next w : reliable w -> next_fault w = None.
Proof.
  unfold reliable, next_fault. destruct (faults w) as [|[e|] fs]; try reflexivity.
  intros H. apply Forall_inv in H. discriminate.
Qed.

Lemma reliable_sent r w : reliable w -> reliable (sent r w).
Proof.
  unfold reliable, sent; simpl. destruct (faults w); simpl; intros H.
  - constructor.
  - eapply Forall_inv_tail; eassumption.
Qed.

Lemma site_lists_sent r w url : site_lists (sent r w) url = site_lists w url.
Proof. reflexivity. Qed.

Lemma site_lists_set url ls w : site_lists (set_site_lists url ls w) url = ls.
Proof. unfold site_lists, set_site_lists; simpl. by rewrite lookup_insert_eq. Qed.

Lemma reliable_set url ls w : reliable w -> reliable (set_site_lists url ls w).
Proof. exact (fun H => H). Qed.

(** ** Credentials and session construction *)

Section Session.

Variable json_load : bytes -> option json.

(** C8: with no secrets file and an empty client id or client secret, the
    constructor raises before anything is sent: the world, and with it the
    trace of round trips, is untouched. *)
Theorem init_missing_credentials :
  forall site server_url client_id client_secret w,
    client_id = "" \/ client_secret = "" ->
    SharepointAPI_init json_load site server_url "" client_id client_secret w
    = (Raise (Exn Exception_ missing_credentials_msg), w).
Proof.
  intros site0 url0 cid csec w H.
  unfold SharepointAPI_init, SharepointClientAccess_init, bind; simpl.
  destruct H as [-> | ->]; simpl.
  - reflexivity.
  - rewrite orb_true_r. reflexivity.
Qed.

(** C2 (as the code has it): a failure of the first round trip (the web
    root) is raised to the caller whatever its class; a failure of the second
    (the site object) is logged and swallowed when it is a
    [SharepointError], the session still being returned, and is raised to
    the caller when it is of another class; when both are answered the
    session is returned and nothing is logged. *)
Theorem get_sharepoint_ctx_two_phase :
  forall url client_id client_secret w,
    let session := (mkClientContext url client_id client_secret, mkWeb url) in
    (forall e, next_fault w = Some e ->
       get_sharepoint_ctx url client_id client_secret w
       = (Raise e, sent (ReqWebGet url) w)) /\
    (forall e, next_fault w = None ->
       next_fault (sent (ReqWebGet url) w) = Some e ->
       is_SharepointError e = true ->
       get_sharepoint_ctx url client_id client_secret w
       = (Ok session,
          logged ERROR "Unable to execute web queries"
            (sent (ReqSiteGet url) (sent (ReqWebGet url) w)))) /\
    (forall e, next_fault w = None ->
       next_fault (sent (ReqWebGet url) w) = Some e ->
       is_SharepointError e = false ->
       get_sharepoint_ctx url client_id client_secret w
       = (Raise e, sent (ReqSiteGet url) (sent (ReqWebGet url) w))) /\
    (next_fault w = None ->
     next_fault (sent (ReqWebGet url) w) = None ->
     get_sharepoint_ctx url client_id client_secret w
     = (Ok session, sent (ReqSiteGet url) (sent (ReqWebGet url) w))).
Proof.
  intros url cid csec w session.
  unfold get_sharepoint_ctx, bind, try_except_SharepointError.
  repeat split.
  - intros e H. rewrite (execute_query_failed _ _ _ H). reflexivity.
  - intros e H1 H2 Hc. rewrite (execute_query_answered _ _ H1); simpl.
    rewrite (execute_query_failed _ _ _ H2), Hc. reflexivity.
  - intros e H1 H2 Hc. rewrite (execute_query_answered _ _ H1); simpl.
    rewrite (execute_query_failed _ _ _ H2), Hc. reflexivity.
  - intros H1 H2. rewrite (execute_query_answered _ _ H1); simpl.
    rewrite (execute_query_answered _ _ H2). reflexivity.
Qed.

End Session.

(** ** Library lookup *)

Section Lookup.

Variable self : SharepointAPI.
Let url := web_url (web self).

Lemma lists_filter_title_answered name w :
  next_fault w = None ->
  lists_filter_title url name w
  = (Ok (List.filter (title_is name) (site_lists w url)),
     sent (ReqListsFilter url (odata_eq "Title" name)) w).
Proof.
  intros H. unfold lists_filter_title, bind, get_world, ret.
  rewrite (execute_query_answered _ _ H). reflexivity.
Qed.

Lemma get_document_library_from_name_answered name w :
  next_fault w = None ->
  get_document_library_from_name self name w
  = (Ok (match List.filter (title_is name) (site_lists w url) with
         | [l] => Some l
         | _ => None
         end),
     sent (ReqListsFilter url (odata_eq "Title" name)) w).
Proof.
  intros H. unfold get_document_library_from_name, bind.
  fold url. rewrite (lists_filter_title_answered _ _ H). unfold ret.
  destruct (List.filter _ _) as [|l [|l' ls]]; reflexivity.
Qed.

Lemma title_is_spec name l : title_is name l = true <-> list_title l = name.
Proof. unfold title_is. apply String.eqb_eq. Qed.

(** C3: once the query is answered, the lookup returns a library exactly
    when it is the only one of the site whose title is the given name, and
    returns [None], raising nothing, when no library or several bear that
    title. *)
Theorem get_document_library_from_name_single_match :
  forall name w,
    next_fault w = None ->
    let libs := site_lists w url in
    let matching := List.filter (title_is name) libs in
    (forall l, In l matching <-> In l libs /\ list_title l = name) /\
    (forall l, fst (get_document_library_from_name self name w) = Ok (Some l)
               <-> matching = [l]) /\
    (fst (get_document_library_from_name self name w) = Ok None
     <-> length matching = 0 \/ 2 <= length matching).
Proof.
  intros name w H libs matching.
  rewrite (get_document_library_from_name_answered _ _ H). simpl.
  fold libs. fold matching. split; [|split].
  - intros l. unfold matching. rewrite List.filter_In, title_is_spec. reflexivity.
  - intros l. destruct matching as [|a [|b m]]; split; intros E;
      try discriminate; congruence.
  - destruct matching as [|a [|b m]]; simpl; split; intros E;
      try discriminate; try reflexivity; try (left; reflexivity);
      try (right; lia).
    destruct E as [E|E]; [discriminate | lia].
Qed.

(** find_folder on a library name that resolves to nothing or to several
    libraries: the attribute access on [None] raises after the single
    lookup round trip, and no folder query is made. *)
Lemma find_folder_unresolved_library name folder w :
  next_fault w = None ->
  length (List.filter (title_is name) (site_lists w url)) <> 1 ->
  find_folder self name folder w
  = (Raise (Exn AttributeError "'NoneType' object has no attribute 'root_folder'"),
     sent (ReqListsFilter url (odata_eq "Title" name)) w).
Proof.
  intros H Hn. unfold find_folder, bind.
  rewrite (get_document_library_from_name_answered _ _ H).
  destruct (List.filter _ _) as [|l [|l' ls]]; simpl in *; try reflexivity.
  congruence.
Qed.

End Lookup.

(** ** Find-or-create *)

Section FindOrCreate.

Variable self : SharepointAPI.
Let url := web_url (web self).

Lemma list_max_ge (n : nat) (l : list nat) : In n l -> n <= list_max l.
Proof.
  induction l as [|m l IH]; simpl; [tauto|].
  intros [->|H]; [lia | specialize (IH H); lia].
Qed.

Lemma list_id_le_max_id l ls : In l ls -> list_id l <= max_id ls.
Proof.
  intros H. unfold max_id.
  etransitivity; [| apply list_max_ge, in_map, H]. simpl. lia.
Qed.

Lemma fresh_list_not_in ls title description template folders :
  ~ In (mkDocList (fresh_id ls) title description template folders) ls.
Proof.
  intros H. apply list_id_le_max_id in H. unfold fresh_id in H. simpl in H. lia.
Qed.

Lemma lists_add_answered title description template w :
  next_fault w = None ->
  let l := mkDocList (fresh_id (site_lists w url)) title description template [] in
  lists_add url title description template w
  = (Ok l, set_site_lists url (site_lists w url ++ [l])
             (sent (ReqListsAdd url title description template) w)).
Proof.
  intros H l. unfold lists_add, bind, get_world, modify_world, ret.
  rewrite (execute_query_answered _ _ H). reflexivity.
Qed.

(** C9: when two or more libraries of the site already bear the title, the
    ambiguous lookup yields [None] and a further library of that title is
    created and returned: it is none of the existing ones, it is appended
    to the site, and one more library now bears the title. *)
Theorem create_document_library_ambiguous :
  forall name description w,
    reliable w ->
    2 <= length (List.filter (title_is name) (site_lists w url)) ->
    exists l w',
      create_document_library self name description w = (Ok l, w') /\
      list_title l = name /\
      ~ In l (site_lists w url) /\
      site_lists w' url = site_lists w url ++ [l] /\
      length (List.filter (title_is name) (site_lists w' url))
      = S (length (List.filter (title_is name) (site_lists w url))) /\
      requests w'
      = requests w ++ [ReqListsFilter url (odata_eq "Title" name);
                       ReqListsAdd url name description DocumentLibrary_template].
Proof.
  intros name description w Hr Hn.
  unfold create_document_library, bind. fold url.
  rewrite (get_document_library_from_name_answered _ _ _ (reliable_next _ Hr)).
  fold url.
  destruct (List.filter (title_is name) (site_lists w url)) as [|a [|b m]] eqn:E;
    simpl in Hn; try lia.
  rewrite lists_add_answered by (apply reliable_next, reliable_sent, Hr).
  rewrite site_lists_sent.
  eexists _, _. split; [reflexivity|].
  split; [reflexivity|].
  split; [apply fresh_list_not_in|].
  rewrite site_lists_set. split; [reflexivity|].
  split.
  - rewrite List.filter_app, E. simpl. unfold title_is at 1; simpl.
    rewrite String.eqb_refl, length_app. simpl. lia.
  - simpl. rewrite <- app_assoc. reflexivity.
Qed.

(** *** Folders *)

Lemma find_list_in id ls l : In l ls -> list_id l = id -> is_Some (find_list id ls).
Proof.
  intros Hin Hid. unfold find_list.
  destruct (List.find _ ls) eqn:E; [eauto|].
  eapply List.find_none in E; [|exact Hin]. simpl in E.
  apply Nat.eqb_neq in E. contradiction.
Qed.

Lemma find_list_update id g ls :
  (forall l, list_id (g l) = list_id l) ->
  find_list id (update_list id g ls) = g <$> find_list id ls.
Proof.
  intros Hg. unfold find_list.
  induction ls as [|l ls IH]; simpl; [reflexivity|].
  destruct (Nat.eqb (list_id l) id) eqn:E; simpl.
  - rewrite Hg, E. reflexivity.
  - rewrite E. exact IH.
Qed.

(** Updating a list in place keeps the identifiers of the lists a title
    selects. *)
Lemma filter_title_update id g name ls :
  (forall l, list_id (g l) = list_id l) ->
  (forall l, list_title (g l) = list_title l) ->
  List.map list_id (List.filter (title_is name) (update_list id g ls))
  = List.map list_id (List.filter (title_is name) ls).
Proof.
  intros Hid Ht.
  induction ls as [|l ls IH]; simpl; [reflexivity|].
  assert (Hg : title_is name (g l) = title_is name l)
    by (unfold title_is; rewrite Ht; reflexivity).
  destruct (Nat.eqb (list_id l) id); simpl.
  - rewrite Hg. destruct (title_is name l); simpl; rewrite ?Hid; reflexivity.
  - destruct (title_is name l); simpl; rewrite IH; reflexivity.
Qed.

Lemma folders_filter_name_answered lst name w :
  next_fault w = None ->
  folders_filter_name url lst name w
  = (Ok (List.filter (name_is name) (folders_of w url (list_id lst))),
     sent (ReqFoldersFilter url (list_id lst) (odata_eq "Name" name)) w).
Proof.
  intros H. unfold folders_filter_name, bind, get_world, ret.
  rewrite (execute_query_answered _ _ H). reflexivity.
Qed.

Lemma folders_add_answered lst name w :
  next_fault w = None ->
  let f := mkFolder (fresh_id (site_lists w url)) name in
  folders_add url lst name w
  = (Ok f, set_site_lists url
             (update_list (list_id lst) (add_folder f) (site_lists w url))
             (sent (ReqFoldersAdd url (list_id lst) name) w)).
Proof.
  intros H f. unfold folders_add, bind, get_world, modify_world, ret.
  rewrite (execute_query_answered _ _ H). reflexivity.
Qed.

(** find_folder when the library resolves to [l]. *)
Lemma find_folder_resolved lib name w l :
  reliable w ->
  List.filter (title_is lib) (site_lists w url) = [l] ->
  find_folder self lib name w
  = (Ok (match List.filter (name_is name) (folders_of w url (list_id l)) with
         | [f] => Some f
         | _ => None
         end),
     sent (ReqFoldersFilter url (list_id l) (odata_eq "Name" name))
       (sent (ReqListsFilter url (odata_eq "Title" lib)) w)).
Proof.
  intros Hr El. unfold find_folder, bind.
  rewrite (get_document_library_from_name_answered _ _ _ (reliable_next _ Hr)).
  fold url. rewrite El. simpl. fold url.
  rewrite folders_filter_name_answered by (apply reliable_next, reliable_sent, Hr).
  unfold folders_of. rewrite site_lists_sent.
  destruct (List.filter (name_is name) _) as [|f [|f' fs]]; reflexivity.
Qed.

(** create_folder when the folder is already there: it is returned and the
    remote site is left as it was. *)
Lemma create_folder_existing lib name w l f :
  reliable w ->
  List.filter (title_is lib) (site_lists w url) = [l] ->
  List.filter (name_is name) (folders_of w url (list_id l)) = [f] ->
  exists w',
    create_folder self lib name w = (Ok f, w') /\
    remote w' = remote w /\ reliable w' /\
    requests w' = requests w ++ [ReqListsFilter url (odata_eq "Title" lib);
                                 ReqFoldersFilter url (list_id l) (odata_eq "Name" name)].
Proof.
  intros Hr El Ef. unfold create_folder, bind.
  rewrite (find_folder_resolved _ _ _ _ Hr El), Ef.
  eexists. split; [reflexivity|]. split; [reflexivity|].
  split; [do 2 apply reliable_sent; exact Hr|].
  simpl. rewrite <- app_assoc. reflexivity.
Qed.

(** create_folder when no folder of the name is there: a new one is added
    to the library, after which the library still resolves and holds
    exactly that folder under the name. *)
Lemma create_folder_absent lib name w l :
  reliable w ->
  List.filter (title_is lib) (site_lists w url) = [l] ->
  List.filter (name_is name) (folders_of w url (list_id l)) = [] ->
  exists f w' l',
    create_folder self lib name w = (Ok f, w') /\
    reliable w' /\
    List.filter (title_is lib) (site_lists w' url) = [l'] /\
    list_id l' = list_id l /\
    List.filter (name_is name) (folders_of w' url (list_id l)) = [f] /\
    folder_name f = name.
Proof.
  intros Hr El Ef. unfold create_folder, bind.
  rewrite (find_folder_resolved _ _ _ _ Hr El), Ef.
  set (w1 := sent _ (sent _ w)).
  assert (Hr1 : reliable w1) by (do 2 apply reliable_sent; exact Hr).
  rewrite (get_document_library_from_name_answered _ _ _ (reliable_next _ Hr1)).
  fold url. change (site_lists w1 url) with (site_lists w url). rewrite El. simpl.
  fold url. set (w2 := sent _ w1).
  assert (Hr2 : reliable w2) by (apply reliable_sent; exact Hr1).
  rewrite folders_add_answered by (apply reliable_next, Hr2).
  change (site_lists w2 url) with (site_lists w url).
  set (f := mkFolder _ name).
  assert (Hid : forall x, list_id (add_folder f x) = list_id x) by reflexivity.
  assert (Ht : forall x, list_title (add_folder f x) = list_title x) by reflexivity.
  pose proof (filter_title_update (list_id l) (add_folder f) lib (site_lists w url) Hid Ht)
    as Hm.
  rewrite El in Hm. simpl in Hm.
  destruct (List.filter (title_is lib) (update_list _ _ _)) as [|l' [|l'' ls]] eqn:El';
    simpl in Hm; try discriminate.
  exists f, (set_site_lists url (update_list (list_id l) (add_folder f) (site_lists w url))
               (sent (ReqFoldersAdd url (list_id l) name) w2)), l'.
  split; [reflexivity|].
  split; [apply reliable_set, reliable_sent, Hr2|].
  rewrite site_lists_set. split; [exact El'|].
  split; [congruence|].
  split; [|reflexivity].
  unfold folders_of in *. rewrite site_lists_set, (find_list_update _ _ _ Hid).
  assert (Hin : In l (site_lists w url)).
  { apply (proj1 (List.filter_In (title_is lib) l (site_lists w url))).
    rewrite El. left. reflexivity. }
  destruct (find_list_in (list_id l) _ l Hin eq_refl) as [l0 E0].
  rewrite E0 in *. simpl.
  rewrite List.filter_app, Ef. simpl. unfold name_is; simpl.
  rewrite String.eqb_refl. reflexivity.
Qed.

(** When the library resolves to one list and at most one folder of its
    root bears the name, two successive calls with the same arguments
    return the same folder, and the second call leaves the remote site as
    the first one left it. *)
Lemma create_folder_idempotent :
  forall lib name w l,
    reliable w ->
    List.filter (title_is lib) (site_lists w url) = [l] ->
    length (List.filter (name_is name) (folders_of w url (list_id l))) <= 1 ->
    exists f w1 w2,
      create_folder self lib name w = (Ok f, w1) /\
      create_folder self lib name w1 = (Ok f, w2) /\
      remote w2 = remote w1 /\
      List.filter (name_is name) (folders_of w1 url (list_id l)) = [f].
Proof.
  intros lib name w l Hr El Hn.
  destruct (List.filter (name_is name) (folders_of w url (list_id l)))
    as [|f [|f' fs]] eqn:Ef; simpl in Hn; try lia.
  - destruct (create_folder_absent lib name w l Hr El Ef)
      as (f & w1 & l' & H1 & Hr1 & El1 & Hid & Ef1 & _).
    rewrite <- Hid in Ef1.
    destruct (create_folder_existing lib name w1 l' f Hr1 El1 Ef1)
      as (w2 & H2 & Hrem & _).
    exists f, w1, w2. rewrite Hid in Ef1. auto.
  - destruct (create_folder_existing lib name w l f Hr El Ef)
      as (w1 & H1 & Hrem1 & Hr1 & _).
    assert (Hs : site_lists w1 url = site_lists w url)
      by (unfold site_lists; rewrite Hrem1; reflexivity).
    assert (El1 : List.filter (title_is lib) (site_lists w1 url) = [l])
      by (rewrite Hs; exact El).
    assert (Ef1 : List.filter (name_is name) (folders_of w1 url (list_id l)) = [f])
      by (unfold folders_of in *; rewrite Hs; exact Ef).
    destruct (create_folder_existing lib name w1 l f Hr1 El1 Ef1)
      as (w2 & H2 & Hrem2 & _).
    exists f, w1, w2. auto.
Qed.

(** Folders are keyed by their name within the root of a library: no two
    folders of a root bear the same name. *)
Lemma filter_name_absent name fs :
  ~ In name (List.map folder_name fs) -> List.filter (name_is name) fs = [].
Proof.
  induction fs as [|a fs IH]; simpl; [reflexivity|].
  intros H. destruct (name_is name a) eqn:E.
  - apply String.eqb_eq in E. exfalso. apply H. left. exact E.
  - apply IH. intros Hin. apply H. right. exact Hin.
Qed.

Lemma filter_name_keyed name fs :
  List.NoDup (List.map folder_name fs) ->
  length (List.filter (name_is name) fs) <= 1.
Proof.
  induction fs as [|a fs IH]; simpl; [lia|].
  intros H. apply NoDup_cons_iff in H as [Hna Hnd].
  destruct (name_is name a) eqn:E; [|apply IH, Hnd].
  apply String.eqb_eq in E. rewrite E in Hna.
  rewrite (filter_name_absent _ _ Hna). simpl. lia.
Qed.

Lemma filter_name_nil_absent name fs :
  List.filter (name_is name) fs = [] -> ~ In name (List.map folder_name fs).
Proof.
  induction fs as [|a fs IH]; simpl; [tauto|].
  destruct (name_is name a) eqn:E; [discriminate|].
  intros H [Ha|Hin]; [|exact (IH H Hin)].
  apply String.eqb_neq in E. contradiction.
Qed.

(** The folders of the library once create_folder has added one. *)
Lemma create_folder_absent_appends lib name w l :
  reliable w ->
  List.filter (title_is lib) (site_lists w url) = [l] ->
  List.filter (name_is name) (folders_of w url (list_id l)) = [] ->
  exists f w',
    create_folder self lib name w = (Ok f, w') /\
    folder_name f = name /\
    folders_of w' url (list_id l) = folders_of w url (list_id l) ++ [f].
Proof.
  intros Hr El Ef. unfold create_folder, bind.
  rewrite (find_folder_resolved _ _ _ _ Hr El), Ef.
  set (w1 := sent _ (sent _ w)).
  assert (Hr1 : reliable w1) by (do 2 apply reliable_sent; exact Hr).
  rewrite (get_document_library_from_name_answered _ _ _ (reliable_next _ Hr1)).
  fold url. change (site_lists w1 url) with (site_lists w url). rewrite El. simpl.
  fold url. set (w2 := sent _ w1).
  assert (Hr2 : reliable w2) by (apply reliable_sent; exact Hr1).
  rewrite folders_add_answered by (apply reliable_next, Hr2).
  change (site_lists w2 url) with (site_lists w url).
  set (f := mkFolder _ name).
  eexists f, _. split; [reflexivity|]. split; [reflexivity|].
  unfold folders_of. rewrite site_lists_set.
  rewrite (find_list_update _ (add_folder f) _ (fun x => eq_refl)).
  assert (Hin : In l (site_lists w url)).
  { apply (proj1 (List.filter_In (title_is lib) l (site_lists w url))).
    rewrite El. left. reflexivity. }
  destruct (find_list_in (list_id l) _ l Hin eq_refl) as [l0 E0].
  rewrite E0. reflexivity.
Qed.

(** C4: with the folders of a root keyed by their name (no two of them
    bear the same name), for every library name that resolves to one list
    and every folder name, two successive calls of create_folder with
    these arguments return the same folder; the second call leaves the
    remote site as the first one left it, exactly one folder of the root
    bears the name, and the names of the root are still distinct: no
    duplicate is created. *)
Theorem create_folder_idempotent_keyed :
  forall lib name w l,
    reliable w ->
    List.filter (title_is lib) (site_lists w url) = [l] ->
    List.NoDup (List.map folder_name (folders_of w url (list_id l))) ->
    exists f w1 w2,
      create_folder self lib name w = (Ok f, w1) /\
      create_folder self lib name w1 = (Ok f, w2) /\
      remote w2 = remote w1 /\
      List.filter (name_is name) (folders_of w1 url (list_id l)) = [f] /\
      List.NoDup (List.map folder_name (folders_of w1 url (list_id l))).
Proof.
  intros lib name w l Hr El Hnd.
  destruct (create_folder_idempotent lib name w l Hr El (filter_name_keyed name _ Hnd))
    as (f & w1 & w2 & H1 & H2 & Hrem & Hf).
  exists f, w1, w2. repeat (split; [assumption|]).
  destruct (List.filter (name_is name) (folders_of w url (list_id l)))
    as [|f0 fs] eqn:Ef.
  - destruct (create_folder_absent_appends lib name w l Hr El Ef)
      as (f' & w1' & H1' & Hn & Hfs).
    rewrite H1 in H1'. injection H1' as <- <-.
    rewrite Hfs, List.map_app. simpl.
    apply List.NoDup_app; [exact Hnd | repeat constructor; simpl; tauto |].
    intros x Hx [Hx'|[]]. subst x. rewrite Hn in Hx.
    exact (filter_name_nil_absent _ _ Ef Hx).
  - pose proof (filter_name_keyed name _ Hnd) as Hle. rewrite Ef in Hle.
    destruct fs; [|simpl in Hle; lia].
    destruct (create_folder_existing lib name w l f0 Hr El Ef)
      as (w1' & H1' & Hrem1 & _).
    rewrite H1 in H1'. injection H1' as <- <-.
    unfold folders_of, site_lists in *. rewrite Hrem1. exact Hnd.
Qed.

End FindOrCreate.

(** ** Strings *)

Section Strings.

Lemma string_app_cons (c : ascii) (a b : string) :
  String c a +:+ b = String c (a +:+ b).
Proof. reflexivity. Qed.

Lemma string_app_nil_r (s : string) : s +:+ "" = s.
Proof.
  induction s as [|c s IH]; [reflexivity|].
  rewrite string_app_cons, IH. reflexivity.
Qed.

Lemma string_app_assoc (a b c : string) : (a +:+ b) +:+ c = a +:+ (b +:+ c).
Proof.
  induction a as [|x a IH]; [reflexivity|].
  rewrite !string_app_cons, IH. reflexivity.
Qed.

Lemma prefix_app (p s : string) : String.prefix p (p +:+ s) = true.
Proof.
  induction p as [|c p IH]; [destruct s; reflexivity|].
  rewrite string_app_cons. simpl.
  destruct (ascii_dec c c); [exact IH | congruence].
Qed.

Lemma split_go_nonempty sep s : forall skip cur, split_go sep skip cur s <> [].
Proof.
  induction s as [|c s IH]; intros skip cur; [done|].
  destruct skip; [|apply IH].
  change (split_go sep 0 cur (String c s))
    with (if String.prefix sep (String c s)
          then cur :: split_go sep (String.length sep - 1) "" s
          else split_go sep 0 (cur +:+ String c "") s).
  destruct (String.prefix sep (String c s)); [done | apply IH].
Qed.

(** Passing over the rest of an occurrence. *)
Lemma split_go_skip sep t : forall cur rest,
  split_go sep (String.length t) cur (t +:+ rest) = split_go sep 0 cur rest.
Proof.
  induction t as [|c t IH]; intros cur rest; [reflexivity|].
  rewrite string_app_cons. simpl. apply IH.
Qed.

Lemma split_go_leading sep rest :
  sep <> "" ->
  split_go sep 0 "" (sep +:+ rest) = "" :: split_go sep 0 "" rest.
Proof.
  intros Hne. destruct sep as [|c t]; [congruence|].
  pose proof (prefix_app (String c t) rest) as Hp.
  rewrite string_app_cons in Hp |- *.
  change (split_go (String c t) 0 "" (String c (t +:+ rest)))
    with (if String.prefix (String c t) (String c (t +:+ rest))
          then "" :: split_go (String c t) (String.length (String c t) - 1) "" (t +:+ rest)
          else split_go (String c t) 0 ("" +:+ String c "") (t +:+ rest)).
  rewrite Hp. f_equal. simpl String.length.
  rewrite Nat.sub_succ, Nat.sub_0_r. apply split_go_skip.
Qed.

Lemma split_go_no_occurrence sep s : forall cur,
  occurs sep s = false -> split_go sep 0 cur s = [cur +:+ s].
Proof.
  induction s as [|c s IH]; intros cur H.
  - simpl. rewrite string_app_nil_r. reflexivity.
  - change (occurs sep (String c s))
      with (String.prefix sep (String c s) || occurs sep s) in H.
    apply orb_false_iff in H as [Hp Ho].
    change (split_go sep 0 cur (String c s))
      with (if String.prefix sep (String c s)
            then cur :: split_go sep (String.length sep - 1) "" s
            else split_go sep 0 (cur +:+ String c "") s).
    rewrite Hp, (IH _ Ho), string_app_assoc. reflexivity.
Qed.

Lemma last_part_cons a l : l <> [] -> last_part (a :: l) = last_part l.
Proof. destruct l; [congruence | reflexivity]. Qed.

End Strings.

(** ** Transfers *)

Section Transfers.

Variable self : SharepointAPI.

(** C6 (as the code has it): for a non-empty server_url the path that is
    fetched is the last piece of [file_url.split(server_url)].  It is
    file_url without its leading server_url when server_url does not occur
    again in what follows it, and file_url itself when server_url does not
    occur in it at all. *)
Theorem get_file_fetches_last_part :
  forall file_url w,
    server_url self <> "" ->
    let path := last_part (split_go (server_url self) 0 "" file_url) in
    requests (snd (get_file self file_url w))
    = requests w ++ [ReqFileGet (web_url (web self)) path] /\
    (next_fault w = None -> fst (get_file self file_url w) = Ok (FileAt path)) /\
    (forall rest, file_url = server_url self +:+ rest ->
                  occurs (server_url self) rest = false -> path = rest) /\
    (occurs (server_url self) file_url = false -> path = file_url).
Proof.
  intros file_url w Hne path.
  assert (Ht : truthy (server_url self) = true)
    by (destruct (server_url self); [congruence | reflexivity]).
  unfold get_file, str_split, bind. rewrite Ht. simpl. fold path.
  split; [|split; [|split]].
  - unfold execute_query. destruct (faults w) as [|[e|] fs]; reflexivity.
  - intros H. rewrite (execute_query_answered _ _ H). reflexivity.
  - intros rest -> Ho. unfold path.
    rewrite (split_go_leading _ _ Hne), last_part_cons by apply split_go_nonempty.
    rewrite (split_go_no_occurrence _ _ _ Ho). reflexivity.
  - intros Ho. unfold path. rewrite (split_go_no_occurrence _ _ _ Ho). reflexivity.
Qed.

(** An empty server_url makes [str.split] raise before anything is sent. *)
Lemma get_file_empty_server_url file_url w :
  server_url self = "" ->
  get_file self file_url w = (Raise (Exn ValueError "empty separator"), w).
Proof. intros H. unfold get_file, str_split, bind. rewrite H. reflexivity. Qed.

(** C1 (as the code has it): with a path that names no local file and no
    content, the [SharepointError] raised inside the guarded block is
    caught by the method's own handler: the call logs it and returns
    [None]; nothing has been sent and no answer of the service has been
    consumed. *)
Theorem upload_file_without_input :
  forall lib root_folder file_path file_content file_name w,
    local_files w !! file_path = None ->
    truthy_bytes file_content = false ->
    upload_file self lib root_folder file_path file_content file_name w
    = (Ok None,
       logged ERROR ("Unable to upload file due to error: " +:+ need_content_msg) w).
Proof.
  intros lib root_folder file_path file_content file_name w Hp Hc.
  unfold upload_file, try_except_SharepointError, bind, os_path_exists.
  rewrite Hp. rewrite bool_decide_eq_false_2 by (intros [? ?]; discriminate).
  rewrite Hc. reflexivity.
Qed.

Variable resource_url : string -> string -> string.

(** C10: a path that names no local file makes the size computation raise
    [FileNotFoundError] to the caller, outside the guarded block, with
    nothing sent or logged; and the call returns [False] only when the
    size was obtained and the upload round trip raised a
    [SharepointError]. *)
Theorem upload_large_file_missing_path :
  forall lib root_folder file_path w,
    (local_files w !! file_path = None ->
     upload_large_file resource_url self lib root_folder file_path w
     = (Raise (Exn FileNotFoundError file_path), w)) /\
    (fst (upload_large_file resource_url self lib root_folder file_path w) = Ok false ->
     is_Some (local_files w !! file_path) /\
     exists e, next_fault w = Some e /\ is_SharepointError e = true).
Proof.
  intros lib root_folder file_path w.
  unfold upload_large_file, bind, os_path_getsize, try_except_SharepointError.
  destruct (local_files w !! file_path) as [b|] eqn:E.
  - split; [discriminate|]. intros H. split; [eauto|].
    unfold execute_query, next_fault in *.
    destruct (faults w) as [|[e|] fs]; simpl in H; try discriminate.
    exists e. split; [reflexivity|].
    destruct (is_SharepointError e); [reflexivity | discriminate].
  - split; [reflexivity | discriminate].
Qed.

End Transfers.

(** ** Routing a URL to a site *)

Section Routing.

Variable settings : Settings.
Variable url_match : string -> option (list (string * string)).

Let client_id := SHAREPOINT_CLIENT_ID settings.
Let client_secret := SHAREPOINT_CLIENT_SECRET settings.
Let default_site := SHAREPOINT_SITE settings.
Let default_server_url := SHAREPOINT_SERVER_URL settings.

Lemma group_named matches name s w :
  named_group matches name = Some s -> group matches name w = (Ok s, w).
Proof.
  unfold named_group, group.
  destruct (List.find _ matches) as [kv|]; simpl; [|discriminate].
  intros [= <-]. reflexivity.
Qed.

Variable json_load : bytes -> option json.

(** What the class's constructor returns carries the pair it was given. *)
Lemma SharepointAPI_cls_keeps_pair s u a b w inst w' :
  SharepointAPI_cls json_load s u a b w = (Ok inst, w') ->
  site inst = s /\ server_url inst = u.
Proof.
  unfold SharepointAPI_cls, SharepointAPI_init, SharepointClientAccess_init, bind. simpl.
  destruct (negb (truthy a) || negb (truthy b)); [discriminate|].
  unfold ret. cbv beta iota.
  destruct (get_sharepoint_ctx (u +:+ "/sites/" +:+ s) (JStr a, JStr b).1
              (JStr a, JStr b).2 w) as [[cw|e] w1]; [|discriminate].
  intros [= <- _]. split; reflexivity.
Qed.

(** C7 (as the code has it): when the URL matches, from_url calls the
    constructor with the site_name and server_url groups and the
    configured credentials and returns what it builds, a session of that
    site and server; when that guarded construction raises a
    [SharepointError], the error is logged at debug level and the
    constructor is called with the configured default pair instead, and an
    error of another class is raised to the caller.  When the URL does not
    match, the constructor is called with the default pair; whatever that
    call returns or raises is the outcome of from_url. *)
Theorem from_url_builds_session :
  forall url w,
    (forall matches s u,
       url_match url = Some matches ->
       named_group matches "site_name" = Some s ->
       named_group matches "server_url" = Some u ->
       (forall (T : Type) (cls : string -> string -> string -> string -> M T),
          from_url settings url_match cls url w
          = match cls s u client_id client_secret w with
            | (Ok inst, w') => (Ok inst, w')
            | (Raise e, w') =>
                if is_SharepointError e
                then cls default_site default_server_url client_id client_secret
                       (logged DEBUG
                          ("The current location does not contain a site name using the standard site :"
                           +:+ exn_msg e) w')
                else (Raise e, w')
            end) /\
       (forall inst w',
          SharepointAPI_cls json_load s u client_id client_secret w = (Ok inst, w') ->
          from_url settings url_match (SharepointAPI_cls json_load) url w = (Ok inst, w') /\
          site inst = s /\ server_url inst = u)) /\
    (url_match url = None ->
       (forall (T : Type) (cls : string -> string -> string -> string -> M T),
          from_url settings url_match cls url w
          = cls default_site default_server_url client_id client_secret w) /\
       (forall inst w',
          from_url settings url_match (SharepointAPI_cls json_load) url w = (Ok inst, w') ->
          site inst = default_site /\ server_url inst = default_server_url)).
Proof.
  intros url w. split.
  - intros matches s u Hm Hs Hu.
    assert (Hgen : forall (T : Type) (cls : string -> string -> string -> string -> M T),
      from_url settings url_match cls url w
      = match cls s u client_id client_secret w with
        | (Ok inst, w') => (Ok inst, w')
        | (Raise e, w') =>
            if is_SharepointError e
            then cls default_site default_server_url client_id client_secret
                   (logged DEBUG
                      ("The current location does not contain a site name using the standard site :"
                       +:+ exn_msg e) w')
            else (Raise e, w')
        end).
    { intros T cls. unfold from_url, try_except_SharepointError, bind. rewrite Hm.
      rewrite (group_named _ _ _ _ Hs), (group_named _ _ _ _ Hu).
      fold client_id client_secret default_site default_server_url.
      destruct (cls s u client_id client_secret w) as [[inst|e] w']; [reflexivity|].
      destruct (is_SharepointError e); reflexivity. }
    split; [exact Hgen|].
    intros inst w' Hc. rewrite Hgen, Hc. split; [reflexivity|].
    eapply SharepointAPI_cls_keeps_pair, Hc.
  - intros Hm.
    assert (Hgen : forall (T : Type) (cls : string -> string -> string -> string -> M T),
      from_url settings url_match cls url w
      = cls default_site default_server_url client_id client_secret w).
    { intros T cls. unfold from_url, try_except_SharepointError, bind.
      rewrite Hm. reflexivity. }
    split; [exact Hgen|].
    intros inst w' Hc. rewrite Hgen in Hc.
    eapply SharepointAPI_cls_keeps_pair, Hc.
Qed.

End Routing.

(** ** The statements at concrete inputs *)

Import Samples.
Import MoreSamples.

Lemma init_missing_credentials_witness :
  ("" = "" \/ "app-secret" = "") /\
  SharepointAPI_init no_json "Engineering" "https://contoso.example" "" "" "app-secret" w0
  = (Raise (Exn Exception_ missing_credentials_msg), w0).
Proof.
  split; [left; reflexivity|].
  apply init_missing_credentials. left. reflexivity.
Defined.

Lemma get_sharepoint_ctx_two_phase_witness :
  fst (get_sharepoint_ctx contoso (JStr "app-id") (JStr "app-secret") w_web_refused)
  = Raise (Exn (OtherError "ClientRequestException") "401 Unauthorized") /\
  get_sharepoint_ctx contoso (JStr "app-id") (JStr "app-secret") w_site_refused
  = (Ok (mkClientContext contoso (JStr "app-id") (JStr "app-secret"), mkWeb contoso),
     logged ERROR "Unable to execute web queries"
       (sent (ReqSiteGet contoso) (sent (ReqWebGet contoso) w_site_refused))).
Proof.
  split.
  - rewrite (proj1 (get_sharepoint_ctx_two_phase contoso (JStr "app-id") (JStr "app-secret")
                      w_web_refused)
               (Exn (OtherError "ClientRequestException") "401 Unauthorized"));
      reflexivity.
  - apply (proj1 (proj2 (get_sharepoint_ctx_two_phase contoso (JStr "app-id")
                           (JStr "app-secret") w_site_refused))
             (Exn SharepointError "503 Service Unavailable")); reflexivity.
Defined.

(** The web root is fetched, the site object is not, and the failure
    reaches the caller: no session is returned. *)
Lemma secondary_failure_propagates :
  next_fault w_site_dropped = None /\
  fst (get_sharepoint_ctx contoso (JStr "app-id") (JStr "app-secret") w_site_dropped)
  = Raise (Exn (OtherError "ConnectionError") "connection reset") /\
  log (snd (get_sharepoint_ctx contoso (JStr "app-id") (JStr "app-secret") w_site_dropped))
  = [].
Proof. repeat split. Qed.

Lemma get_document_library_from_name_single_match_witness :
  next_fault w0 = None /\
  fst (get_document_library_from_name api0 "Documents" w0) = Ok (Some docs) /\
  fst (get_document_library_from_name api0 "Archive" w0) = Ok None /\
  fst (get_document_library_from_name api0 "Missing" w0) = Ok None.
Proof.
  split; [reflexivity|].
  pose proof (get_document_library_from_name_single_match api0 "Documents" w0 eq_refl)
    as (_ & Hd & _).
  pose proof (get_document_library_from_name_single_match api0 "Archive" w0 eq_refl)
    as (_ & _ & Ha).
  pose proof (get_document_library_from_name_single_match api0 "Missing" w0 eq_refl)
    as (_ & _ & Hm).
  split; [apply Hd; reflexivity|].
  split; [apply Ha; right; vm_compute; lia | apply Hm; left; reflexivity].
Defined.

(** C5 at two inputs: a title no library bears and a title two libraries
    bear.  In both the call raises [AttributeError] after the one lookup
    round trip, where [None] would have been the absent folder. *)
Theorem find_folder_unresolved_library_raises :
  find_folder api0 "Missing" "reports" w0
  = (Raise (Exn AttributeError "'NoneType' object has no attribute 'root_folder'"),
     sent (ReqListsFilter contoso "Title eq 'Missing'") w0) /\
  find_folder api0 "Archive" "reports" w0
  = (Raise (Exn AttributeError "'NoneType' object has no attribute 'root_folder'"),
     sent (ReqListsFilter contoso "Title eq 'Archive'") w0).
Proof.
  split.
  - apply (find_folder_unresolved_library api0 "Missing" "reports" w0); [reflexivity|].
    vm_compute. lia.
  - apply (find_folder_unresolved_library api0 "Archive" "reports" w0); [reflexivity|].
    vm_compute. lia.
Qed.

Lemma create_folder_idempotent_keyed_witness :
  reliable w0 /\
  List.filter (title_is "Documents") (site_lists w0 contoso) = [docs] /\
  List.NoDup (List.map folder_name (folders_of w0 contoso (list_id docs))) /\
  exists f w1 w2,
    create_folder api0 "Documents" "drafts" w0 = (Ok f, w1) /\
    create_folder api0 "Documents" "drafts" w1 = (Ok f, w2) /\
    remote w2 = remote w1 /\
    List.filter (name_is "drafts") (folders_of w1 contoso (list_id docs)) = [f] /\
    List.NoDup (List.map folder_name (folders_of w1 contoso (list_id docs))).
Proof.
  assert (Hr : reliable w0) by constructor.
  assert (Hl : List.filter (title_is "Documents") (site_lists w0 contoso) = [docs])
    by reflexivity.
  assert (Hn : List.NoDup (List.map folder_name (folders_of w0 contoso (list_id docs))))
    by (vm_compute; repeat constructor; simpl; tauto).
  split; [exact Hr|]. split; [exact Hl|]. split; [exact Hn|].
  exact (create_folder_idempotent_keyed api0 "Documents" "drafts" w0 docs Hr Hl Hn).
Defined.

Lemma create_document_library_ambiguous_witness :
  reliable w0 /\
  2 <= length (List.filter (title_is "Archive") (site_lists w0 contoso)) /\
  exists l w',
    create_document_library api0 "Archive" "old files" w0 = (Ok l, w') /\
    list_title l = "Archive" /\
    ~ In l (site_lists w0 contoso) /\
    site_lists w' contoso = site_lists w0 contoso ++ [l] /\
    length (List.filter (title_is "Archive") (site_lists w' contoso))
    = S (length (List.filter (title_is "Archive") (site_lists w0 contoso))) /\
    requests w'
    = requests w0 ++ [ReqListsFilter contoso (odata_eq "Title" "Archive");
                      ReqListsAdd contoso "Archive" "old files" DocumentLibrary_template].
Proof.
  assert (Hr : reliable w0) by constructor.
  assert (Hn : 2 <= length (List.filter (title_is "Archive") (site_lists w0 contoso)))
    by (vm_compute; lia).
  split; [exact Hr|]. split; [exact Hn|].
  exact (create_document_library_ambiguous api0 "Archive" "old files" w0 Hr Hn).
Defined.

Lemma get_file_fetches_last_part_witness :
  server_url api0 <> "" /\
  requests (snd (get_file api0 "https://contoso.example/sites/Engineering/plan.docx" w0))
  = requests w0 ++ [ReqFileGet contoso "/sites/Engineering/plan.docx"] /\
  fst (get_file api0 "https://contoso.example/sites/Engineering/plan.docx" w0)
  = Ok (FileAt "/sites/Engineering/plan.docx").
Proof.
  assert (Hne : server_url api0 <> "") by discriminate.
  split; [exact Hne|].
  pose proof (get_file_fetches_last_part api0
                "https://contoso.example/sites/Engineering/plan.docx" w0 Hne)
    as (Hreq & Hres & _).
  split; [exact Hreq | exact (Hres eq_refl)].
Defined.

(** A URL that contains the server_url without starting with it: the
    spec's reading leaves it unchanged, the call fetches what follows the
    occurrence. *)
Lemma get_file_strips_inner_occurrence :
  String.prefix (server_url api0) mirrored_url = false /\
  remove_leading (server_url api0) mirrored_url = mirrored_url /\
  requests (snd (get_file api0 mirrored_url w0))
  = [ReqFileGet contoso "/sites/Engineering/plan.docx"] /\
  requests (snd (get_file api0 mirrored_url w0))
  <> requests w0
     ++ [ReqFileGet contoso (remove_leading (server_url api0) mirrored_url)].
Proof. vm_compute. repeat split. discriminate. Qed.

Lemma upload_file_without_input_witness :
  local_files w0 !! "nope.txt" = None /\
  truthy_bytes None = false /\
  upload_file api0 "Documents" "reports" "nope.txt" None "" w0
  = (Ok None,
     logged ERROR ("Unable to upload file due to error: " +:+ need_content_msg) w0).
Proof.
  split; [reflexivity|]. split; [reflexivity|].
  apply upload_file_without_input; reflexivity.
Defined.

(** The same call raises nothing to its caller. *)
Lemma upload_file_without_input_returns :
  local_files w0 !! "nope.txt" = None /\
  ~ raises (fst (upload_file api0 "Documents" "reports" "nope.txt" None "" w0)).
Proof.
  split; [reflexivity|].
  intros [e H]. vm_compute in H. discriminate.
Qed.

Lemma upload_large_file_missing_path_witness :
  local_files w0 !! "nope.bin" = None /\
  upload_large_file no_resource_url api0 "Documents" "reports" "nope.bin" w0
  = (Raise (Exn FileNotFoundError "nope.bin"), w0).
Proof.
  split; [reflexivity|].
  apply (proj1 (upload_large_file_missing_path api0 no_resource_url
                  "Documents" "reports" "nope.bin" w0)).
  reflexivity.
Defined.

Lemma sample_pattern_has_groups url :
  forall matches, sample_pattern_match url = Some matches ->
    is_Some (named_group matches "site_name") /\
    is_Some (named_group matches "server_url").
Proof.
  intros matches. unfold sample_pattern_match.
  destruct (strip_prefix "https://" url) as [rest|]; [|discriminate].
  destruct (span_no_slash rest) as [host rest'].
  destruct (strip_prefix "/sites/" rest') as [rest''|]; [|discriminate].
  destruct (span_no_slash rest'') as [site_name tail].
  destruct (truthy host && truthy site_name); [|discriminate].
  intros [= <-]. split; eexists; reflexivity.
Qed.

Lemma from_url_builds_session_witness :
  from_url sample_settings sample_pattern_match (SharepointAPI_cls no_json)
    engineering_url w0
  = (Ok (session_for "Engineering" "https://contoso.example"
           (JStr "app-id") (JStr "app-secret")),
     sent (ReqSiteGet contoso) (sent (ReqWebGet contoso) w0)) /\
  site (session_for "Engineering" "https://contoso.example"
          (JStr "app-id") (JStr "app-secret")) = "Engineering" /\
  server_url (session_for "Engineering" "https://contoso.example"
                (JStr "app-id") (JStr "app-secret")) = "https://contoso.example".
Proof.
  apply (proj2 (proj1 (from_url_builds_session sample_settings sample_pattern_match no_json
                         engineering_url w0)
                  [("server_url", "https://contoso.example"); ("site_name", "Engineering")]
                  "Engineering" "https://contoso.example" eq_refl eq_refl eq_refl)).
  reflexivity.
Defined.

(** The URL matches and the session returned is that of the default site;
    a URL that does not match, with no client secret configured, makes the
    call raise. *)
Lemma from_url_not_the_pair_nor_total :
  sample_pattern_match engineering_url
  = Some [("server_url", "https://contoso.example"); ("site_name", "Engineering")] /\
  (exists inst,
     fst (from_url sample_settings sample_pattern_match (SharepointAPI_cls no_json)
            engineering_url w_refused) = Ok inst /\
     site inst = "Home" /\ server_url inst = "https://intranet.example") /\
  sample_pattern_match "not a url" = None /\
  from_url unconfigured_settings sample_pattern_match (SharepointAPI_cls no_json)
    "not a url" w0
  = (Raise (Exn Exception_ missing_credentials_msg), w0).
Proof.
  split; [reflexivity|]. split.
  - eexists. split; [reflexivity|]. split; reflexivity.
  - split; reflexivity.
Qed.

(** ** Further properties: credentials and sessions *)

Section SessionMore.

Variable json_load : bytes -> option json.

Lemma getitem_field j k v w : json_field j k = Some v -> getitem j k w = (Ok v, w).
Proof.
  destruct j as [s|fields|]; simpl; try discriminate.
  destruct (List.find _ fields) as [kv|]; simpl; [|discriminate].
  intros [= <-]. reflexivity.
Qed.

Lemma getitem_no_field j k w :
  json_field j k = None ->
  exists e, getitem j k w = (Raise e, w) /\ is_SharepointError e = false.
Proof.
  destruct j as [s|fields|]; simpl.
  - eexists. split; reflexivity.
  - destruct (List.find _ fields) as [kv|]; simpl; [discriminate|].
    eexists. split; reflexivity.
  - eexists. split; reflexivity.
Qed.

(** Reading the secrets file never touches the world, and succeeds exactly
    with the entry of the site. *)
Lemma read_secrets_entry path site0 w file data :
  local_files w !! path = Some file ->
  json_load file = Some data ->
  match secrets_entry data site0 with
  | Some cred => read_secrets json_load path site0 w = (Ok cred, w)
  | None => exists e, read_secrets json_load path site0 w = (Raise e, w) /\
                      is_SharepointError e = false
  end.
Proof.
  intros Hf Hj. unfold read_secrets, secrets_entry, bind, read_file, ret.
  rewrite Hf, Hj. cbv beta iota.
  destruct (json_field data "sites") as [sites|] eqn:E1.
  2:{ destruct (getitem_no_field _ _ w E1) as (e & -> & He). eauto. }
  rewrite (getitem_field _ _ _ _ E1). cbv beta iota.
  destruct (json_field sites site0) as [entry|] eqn:E2.
  2:{ destruct (getitem_no_field _ _ w E2) as (e & -> & He). eauto. }
  rewrite (getitem_field _ _ _ _ E2). cbv beta iota.
  destruct (json_field entry "username") as [user|] eqn:E3.
  2:{ destruct (getitem_no_field _ _ w E3) as (e & -> & He). eauto. }
  rewrite (getitem_field _ _ _ _ E3). cbv beta iota.
  rewrite (getitem_field _ _ _ _ E1). cbv beta iota.
  rewrite (getitem_field _ _ _ _ E2). cbv beta iota.
  destruct (json_field entry "password") as [password|] eqn:E4.
  2:{ destruct (getitem_no_field _ _ w E4) as (e & -> & He). eauto. }
  rewrite (getitem_field _ _ _ _ E4). reflexivity.
Qed.

Lemma get_sharepoint_ctx_answered url a b w :
  next_fault w = None ->
  next_fault (sent (ReqWebGet url) w) = None ->
  get_sharepoint_ctx url a b w
  = (Ok (mkClientContext url a b, mkWeb url),
     sent (ReqSiteGet url) (sent (ReqWebGet url) w)).
Proof.
  intros H1 H2. unfold get_sharepoint_ctx, bind, try_except_SharepointError.
  rewrite (execute_query_answered _ _ H1); simpl.
  rewrite (execute_query_answered _ _ H2). reflexivity.
Qed.

(** Whatever get_sharepoint_ctx returns, it returns the handles bound to
    the URL after exactly the two liveness round trips. *)
Lemma get_sharepoint_ctx_returns url a b w cw w' :
  get_sharepoint_ctx url a b w = (Ok cw, w') ->
  cw = (mkClientContext url a b, mkWeb url) /\
  requests w' = requests w ++ [ReqWebGet url; ReqSiteGet url] /\
  remote w' = remote w /\ local_files w' = local_files w.
Proof.
  unfold get_sharepoint_ctx, bind, try_except_SharepointError, execute_query, logger, ret.
  destruct (faults w) as [|[e|] [|[e'|] fs]]; simpl; try discriminate;
    try (destruct (is_SharepointError e'); simpl; try discriminate);
    intros [= <- <-]; simpl; rewrite <- app_assoc; auto.
Qed.

(** X1: when a secrets path is given, the credentials of the session are
    the username and password the file holds for the site; the client_id
    and client_secret arguments are not used. *)
Theorem init_reads_secrets :
  forall site0 server_url0 path client_id client_secret w file data user password,
    truthy path = true ->
    local_files w !! path = Some file ->
    json_load file = Some data ->
    secrets_entry data site0 = Some (user, password) ->
    next_fault w = None ->
    next_fault (sent (ReqWebGet (server_url0 +:+ "/sites/" +:+ site0)) w) = None ->
    SharepointAPI_init json_load site0 server_url0 path client_id client_secret w
    = (Ok (session_for site0 server_url0 user password),
       sent (ReqSiteGet (server_url0 +:+ "/sites/" +:+ site0))
         (sent (ReqWebGet (server_url0 +:+ "/sites/" +:+ site0)) w)).
Proof.
  intros site0 server_url0 path cid csec w file data user password Hp Hf Hj He H1 H2.
  unfold SharepointAPI_init, SharepointClientAccess_init, bind. rewrite Hp.
  pose proof (read_secrets_entry path site0 w file data Hf Hj) as Hr.
  rewrite He in Hr. rewrite Hr. simpl.
  rewrite (get_sharepoint_ctx_answered _ _ _ _ H1 H2). reflexivity.
Qed.

(** X2: when a secrets path is given and the file is missing, is not JSON,
    or holds no username and password for the site, the constructor raises
    an error that is not a [SharepointError] and leaves the world as it
    was: nothing is sent. *)
Theorem init_unusable_secrets :
  forall site0 server_url0 path client_id client_secret w,
    truthy path = true ->
    match local_files w !! path with
    | None => True
    | Some file =>
        match json_load file with
        | None => True
        | Some data => secrets_entry data site0 = None
        end
    end ->
    exists e,
      SharepointAPI_init json_load site0 server_url0 path client_id client_secret w
      = (Raise e, w) /\ is_SharepointError e = false.
Proof.
  intros site0 server_url0 path cid csec w Hp H.
  unfold SharepointAPI_init, SharepointClientAccess_init, bind. rewrite Hp.
  destruct (local_files w !! path) as [file|] eqn:Hf.
  - destruct (json_load file) as [data|] eqn:Hj.
    + pose proof (read_secrets_entry path site0 w file data Hf Hj) as Hr.
      rewrite H in Hr. destruct Hr as (e & -> & He). eauto.
    + unfold read_secrets, bind, read_file. rewrite Hf, Hj. simpl. eauto.
  - unfold read_secrets, bind, read_file. rewrite Hf. eauto.
Qed.

Lemma read_secrets_world path site0 w r w' :
  read_secrets json_load path site0 w = (r, w') -> w' = w.
Proof.
  unfold read_secrets, bind, read_file.
  destruct (local_files w !! path) as [file|]; [|intros [= _ <-]; reflexivity].
  destruct (json_load file) as [data|]; simpl; [|intros [= _ <-]; reflexivity].
  assert (Hg : forall j k, exists r0, getitem j k w = (r0, w)).
  { intros j k. destruct j as [x|fields|]; simpl; eauto.
    destruct (List.find _ fields); simpl; eauto. }
  repeat match goal with
         | |- context [getitem ?j ?k w] =>
             let r0 := fresh "r" in
             let E := fresh "E" in
             destruct (Hg j k) as [r0 E]; rewrite E; clear E;
             destruct r0; [|intros [= _ <-]; reflexivity]
         end.
  intros [= _ <-]. reflexivity.
Qed.

(** X3: every session the constructor returns keeps the arguments site
    and server_url, has the complete_url server_url/sites/site, and has its
    context and web root bound to that URL; the construction made exactly
    the two liveness round trips, both to that URL, and changed neither the
    remote sites nor the local files. *)
Theorem init_returns_bound_session :
  forall site0 server_url0 path client_id client_secret w s w',
    SharepointAPI_init json_load site0 server_url0 path client_id client_secret w
    = (Ok s, w') ->
    site s = site0 /\ server_url s = server_url0 /\ bound_session s /\
    requests w' = requests w ++ [ReqWebGet (complete_url s); ReqSiteGet (complete_url s)] /\
    remote w' = remote w /\ local_files w' = local_files w.
Proof.
  intros site0 server_url0 path cid csec w s w'.
  unfold SharepointAPI_init, SharepointClientAccess_init, bind.
  set (cred := if truthy path then _ else _).
  destruct (cred w) as [[c|e] w1] eqn:Ec; [|discriminate].
  assert (Hw : w1 = w).
  { unfold cred in Ec. destruct (truthy path).
    - eapply read_secrets_world, Ec.
    - destruct (negb (truthy cid) || negb (truthy csec)); inversion Ec; reflexivity. }
  subst w1.
  destruct (get_sharepoint_ctx _ _ _ w) as [[cw|e] w2] eqn:Eg; [|discriminate].
  apply get_sharepoint_ctx_returns in Eg as (-> & Hreq & Hrem & Hloc).
  intros [= <- <-]. simpl. unfold bound_session. simpl. auto 10.
Qed.

End SessionMore.

(** ** Further properties: from_url on the class itself *)

Section RoutingMore.

Variable json_load : bytes -> option json.
Variable settings : Settings.
Variable url_match : string -> option (list (string * string)).

Let cid := SHAREPOINT_CLIENT_ID settings.
Let csec := SHAREPOINT_CLIENT_SECRET settings.
Let cls := SharepointAPI_cls json_load.

Lemma cls_without_credentials site0 server_url0 a b w :
  a = "" \/ b = "" ->
  cls site0 server_url0 a b w = (Raise (Exn Exception_ missing_credentials_msg), w).
Proof.
  intros H. unfold cls, SharepointAPI_cls, SharepointAPI_init,
    SharepointClientAccess_init, bind; simpl.
  destruct H as [-> | ->]; simpl; [reflexivity|].
  rewrite orb_true_r. reflexivity.
Qed.

Lemma cls_with_credentials site0 server_url0 a b w :
  truthy a = true -> truthy b = true ->
  cls site0 server_url0 a b w
  = bind (get_sharepoint_ctx (server_url0 +:+ "/sites/" +:+ site0) (JStr a) (JStr b))
         (fun cw => ret (mkSharepointAPI site0 server_url0
                           (server_url0 +:+ "/sites/" +:+ site0) (fst cw) (snd cw))) w.
Proof.
  intros Ha Hb. unfold cls, SharepointAPI_cls, SharepointAPI_init,
    SharepointClientAccess_init, bind; simpl.
  rewrite Ha, Hb. reflexivity.
Qed.

(** X4: from_url takes the credentials from the settings only.  When the
    configured client id or secret is empty, it raises the
    missing-credentials exception for every URL, matching or not, and
    nothing is sent or logged. *)
Theorem from_url_needs_configured_credentials :
  forall url w,
    cid = "" \/ csec = "" ->
    (forall matches, url_match url = Some matches ->
       is_Some (named_group matches "site_name") /\
       is_Some (named_group matches "server_url")) ->
    from_url settings url_match cls url w
    = (Raise (Exn Exception_ missing_credentials_msg), w).
Proof.
  intros url w Hc Hg.
  unfold from_url, try_except_SharepointError, bind. fold cid csec.
  destruct (url_match url) as [matches|].
  - destruct (Hg _ eq_refl) as [[s Hs] [u Hu]].
    rewrite (group_named _ _ _ _ Hs), (group_named _ _ _ _ Hu).
    rewrite (cls_without_credentials _ _ _ _ _ Hc). reflexivity.
  - simpl. apply cls_without_credentials, Hc.
Qed.

(** X5: when the URL matches but the web root of the extracted site
    answers with a [SharepointError], from_url logs it at debug level and
    builds the session of the configured default site instead; a failure
    of another class is raised without the default site being tried. *)
Theorem from_url_falls_back_on_refused_site :
  forall url w matches s u e,
    truthy cid = true -> truthy csec = true ->
    url_match url = Some matches ->
    named_group matches "site_name" = Some s ->
    named_group matches "server_url" = Some u ->
    next_fault w = Some e ->
    let parsed := u +:+ "/sites/" +:+ s in
    let fallback := SHAREPOINT_SERVER_URL settings +:+ "/sites/" +:+ SHAREPOINT_SITE settings in
    let w1 := logged DEBUG
                ("The current location does not contain a site name using the standard site :"
                 +:+ exn_msg e) (sent (ReqWebGet parsed) w) in
    (is_SharepointError e = true ->
     next_fault w1 = None ->
     next_fault (sent (ReqWebGet fallback) w1) = None ->
     from_url settings url_match cls url w
     = (Ok (session_for (SHAREPOINT_SITE settings) (SHAREPOINT_SERVER_URL settings)
              (JStr cid) (JStr csec)),
        sent (ReqSiteGet fallback) (sent (ReqWebGet fallback) w1))) /\
    (is_SharepointError e = false ->
     from_url settings url_match cls url w = (Raise e, sent (ReqWebGet parsed) w)).
Proof.
  intros url w matches s u e Hi Hs Hm Hgs Hgu Hf parsed fallback w1.
  assert (Hcls : cls s u cid csec w = (Raise e, sent (ReqWebGet parsed) w)).
  { rewrite (cls_with_credentials _ _ _ _ _ Hi Hs).
    unfold bind, get_sharepoint_ctx, bind. fold parsed.
    rewrite (execute_query_failed _ _ _ Hf). reflexivity. }
  unfold from_url, try_except_SharepointError, bind. fold cid csec. rewrite Hm.
  rewrite (group_named _ _ _ _ Hgs), (group_named _ _ _ _ Hgu), Hcls.
  split; intros He; rewrite He.
  - intros H1 H2.
    change (cls (SHAREPOINT_SITE settings) (SHAREPOINT_SERVER_URL settings) cid csec w1
            = (Ok (session_for (SHAREPOINT_SITE settings) (SHAREPOINT_SERVER_URL settings)
                     (JStr cid) (JStr csec)),
               sent (ReqSiteGet fallback) (sent (ReqWebGet fallback) w1))).
    rewrite (cls_with_credentials _ _ _ _ _ Hi Hs). unfold bind. fold fallback.
    rewrite (get_sharepoint_ctx_answered _ _ _ _ H1 H2). reflexivity.
  - reflexivity.
Qed.

End RoutingMore.

(** ** Further properties: splitting strings *)

Section StringsMore.

Lemma prefix_decompose (p s : string) :
  String.prefix p s = true -> exists rest, s = p +:+ rest.
Proof.
  revert s. induction p as [|c p IH]; intros s H.
  - exists s. reflexivity.
  - destruct s as [|d s]; simpl in H; [discriminate H|].
    destruct (ascii_dec c d) as [->|]; [|discriminate H].
    destruct (IH _ H) as [rest ->]. exists rest. reflexivity.
Qed.

Lemma string_length_app (a b : string) :
  String.length (a +:+ b) = String.length a + String.length b.
Proof.
  induction a as [|c a IH]; [reflexivity|].
  rewrite string_app_cons. simpl. rewrite IH. reflexivity.
Qed.

Lemma concat_cons sep x l :
  l <> [] -> String.concat sep (x :: l) = x +:+ sep +:+ String.concat sep l.
Proof. destruct l; [congruence | reflexivity]. Qed.

Lemma concat_snoc sep l x :
  l <> [] -> String.concat sep (l ++ [x]) = String.concat sep l +:+ sep +:+ x.
Proof.
  induction l as [|y l IH]; [congruence|]. intros _.
  destruct l as [|z l].
  - reflexivity.
  - change ((y :: z :: l) ++ [x]) with (y :: ((z :: l) ++ [x])).
    rewrite concat_cons by (simpl; intros ?; discriminate).
    rewrite IH by (intros ?; discriminate).
    rewrite (concat_cons sep y (z :: l)) by (intros ?; discriminate).
    rewrite !string_app_assoc. reflexivity.
Qed.

Lemma split_go_step sep cur c s :
  split_go sep 0 cur (String c s)
  = if String.prefix sep (String c s)
    then cur :: split_go sep (String.length sep - 1) "" s
    else split_go sep 0 (cur +:+ String c "") s.
Proof. reflexivity. Qed.

Lemma split_go_join sep :
  sep <> "" ->
  forall n s cur,
    String.length s <= n ->
    String.concat sep (split_go sep 0 cur s) = cur +:+ s.
Proof.
  intros Hne. induction n as [|n IH]; intros s cur Hn.
  - destruct s; [|simpl in Hn; lia]. simpl. rewrite string_app_nil_r. reflexivity.
  - destruct s as [|c s]; [simpl; rewrite string_app_nil_r; reflexivity|].
    rewrite split_go_step. simpl in Hn.
    destruct (String.prefix sep (String c s)) eqn:Hp.
    + destruct (prefix_decompose _ _ Hp) as [rest Hs].
      destruct sep as [|d t]; [congruence|].
      rewrite string_app_cons in Hs. injection Hs as -> ->.
      simpl String.length. rewrite Nat.sub_succ, Nat.sub_0_r, split_go_skip.
      rewrite concat_cons by apply split_go_nonempty.
      rewrite IH by (rewrite string_length_app in Hn; lia).
      rewrite string_app_cons. reflexivity.
    + rewrite IH by lia. rewrite string_app_assoc. reflexivity.
Qed.

(** X6: joining the pieces of [s.split(sep)] with [sep] gives [s] back. *)
Theorem str_split_join :
  forall sep s w,
    sep <> "" ->
    exists pieces,
      str_split s sep w = (Ok pieces, w) /\ String.concat sep pieces = s.
Proof.
  intros sep s w Hne. unfold str_split.
  assert (Ht : truthy sep = true) by (destruct sep; [congruence | reflexivity]).
  rewrite Ht. eexists. split; [reflexivity|].
  apply (split_go_join sep Hne (String.length s) s ""). lia.
Qed.

Lemma last_part_decompose sep pieces :
  pieces <> [] ->
  String.concat sep pieces = last_part pieces \/
  exists before, String.concat sep pieces = before +:+ sep +:+ last_part pieces.
Proof.
  intros Hne. unfold last_part.
  pose proof (app_removelast_last "" Hne) as E.
  set (x := List.last pieces "") in *. set (l := removelast pieces) in *.
  clearbody x l. subst pieces.
  destruct l as [|p ps].
  - left. reflexivity.
  - right. rewrite concat_snoc by (intros ?; discriminate). eauto.
Qed.

Variable self : SharepointAPI.

(** X7: the path get_file asks for is taken from file_url itself: it is
    either the whole of file_url or the text that follows an occurrence of
    server_url in it. *)
Theorem get_file_path_follows_server_url :
  forall file_url w,
    server_url self <> "" ->
    exists path,
      requests (snd (get_file self file_url w))
      = requests w ++ [ReqFileGet (web_url (web self)) path] /\
      (file_url = path \/
       exists before, file_url = before +:+ server_url self +:+ path).
Proof.
  intros file_url w Hne.
  assert (Ht : truthy (server_url self) = true)
    by (destruct (server_url self); [congruence | reflexivity]).
  exists (last_part (split_go (server_url self) 0 "" file_url)). split.
  - unfold get_file, str_split, bind. rewrite Ht. simpl.
    unfold execute_query. destruct (faults w) as [|[e|] fs]; reflexivity.
  - pose proof (split_go_join _ Hne (String.length file_url) file_url "" (le_n _)) as Hj.
    simpl in Hj.
    destruct (last_part_decompose (server_url self)
                (split_go (server_url self) 0 "" file_url)
                (split_go_nonempty _ _ _ _)) as [H|[before H]];
      rewrite Hj in H; [left | right; exists before]; exact H.
Qed.

Lemma split_slash_last rest :
  occurs "/" rest = false ->
  forall dir cur, last_part (split_go "/" 0 cur (dir +:+ "/" +:+ rest)) = rest.
Proof.
  intros Hr. induction dir as [|c dir IH]; intros cur.
  - change ("" +:+ "/" +:+ rest) with (String "/" rest).
    rewrite split_go_step.
    change (String.prefix "/" (String "/" rest)) with (String.prefix "" rest).
    replace (String.prefix "" rest) with true by (destruct rest; reflexivity).
    simpl String.length. simpl Nat.sub.
    rewrite last_part_cons by apply split_go_nonempty.
    rewrite (split_go_no_occurrence _ _ _ Hr). reflexivity.
  - rewrite string_app_cons, split_go_step.
    destruct (String.prefix "/" (String c (dir +:+ "/" +:+ rest))).
    + simpl String.length. simpl Nat.sub.
      rewrite last_part_cons by apply split_go_nonempty. apply IH.
    + apply IH.
Qed.

(** X8: os.path.basename returns a path without a slash unchanged, and
    returns the last component of dir/name when name has no slash (the
    empty string for a path that ends with a slash). *)
Theorem os_path_basename_last_component :
  forall dir name,
    occurs "/" name = false ->
    os_path_basename name = name /\
    os_path_basename (dir +:+ "/" +:+ name) = name.
Proof.
  intros dir name Hn. unfold os_path_basename. split.
  - rewrite (split_go_no_occurrence _ _ _ Hn). reflexivity.
  - apply split_slash_last, Hn.
Qed.

End StringsMore.

(** ** Further properties: uploads *)

Section UploadMore.

Variable self : SharepointAPI.
Let url := web_url (web self).

Lemma os_path_exists_present path w data :
  local_files w !! path = Some data -> os_path_exists path w = (Ok true, w).
Proof.
  intros H. unfold os_path_exists. rewrite H.
  rewrite bool_decide_eq_true_2 by eauto. reflexivity.
Qed.

Lemma upload_file_with_local_file lib root_folder path content name w data :
  local_files w !! path = Some data ->
  upload_file self lib root_folder path content name w
  = try_except_SharepointError
      (let* target_folder := create_folder self lib root_folder in
       let* target_file :=
         folder_upload_file (ctx_url (ctx self)) target_folder
           (if negb (truthy name) then os_path_basename path else name) data in
       ret (Some target_file))
      (fun error =>
         do* logger ERROR ("Unable to upload file due to error: " +:+ exn_msg error) in
         ret None) w.
Proof.
  intros H. unfold upload_file, try_except_SharepointError, bind.
  rewrite (os_path_exists_present _ _ _ H). unfold read_file. rewrite H. reflexivity.
Qed.

(** X9: when file_path names a local file, upload_file sends the bytes of
    that file, whatever file_content was passed, under file_name or, when
    file_name is empty, under the base name of the path.  With the library
    resolved and the folder present, the call makes three round trips, the
    last one uploading into that folder, and returns the new file. *)
Theorem upload_file_sends_local_file :
  forall lib root_folder path content name w data l f,
    local_files w !! path = Some data ->
    reliable w ->
    List.filter (title_is lib) (site_lists w url) = [l] ->
    List.filter (name_is root_folder) (folders_of w url (list_id l)) = [f] ->
    let sent_name := if negb (truthy name) then os_path_basename path else name in
    exists w',
      upload_file self lib root_folder path content name w
      = (Ok (Some (FileIn (folder_id f) sent_name)), w') /\
      requests w'
      = requests w ++ [ReqListsFilter url (odata_eq "Title" lib);
                       ReqFoldersFilter url (list_id l) (odata_eq "Name" root_folder);
                       ReqFolderUpload (ctx_url (ctx self)) (folder_id f) sent_name data] /\
      remote w' = remote w.
Proof.
  intros lib root_folder path content name w data l f Hp Hr El Ef sent_name.
  rewrite (upload_file_with_local_file _ _ _ _ _ _ _ Hp).
  destruct (create_folder_existing self lib root_folder w l f Hr El Ef)
    as (w1 & Hc & Hrem & Hr1 & Hreq).
  unfold try_except_SharepointError, bind, folder_upload_file, bind.
  fold url in Hc, Hreq. rewrite Hc.
  rewrite (execute_query_answered _ _ (reliable_next _ Hr1)). fold sent_name.
  eexists. split; [reflexivity|]. split; [|exact Hrem].
  simpl. rewrite Hreq, <- app_assoc. reflexivity.
Qed.


(** X11: when there is something to upload (file_path names a local
    file, or non-empty bytes are passed) and the library name resolves to
    nothing or to several libraries, the [AttributeError] of the folder
    lookup is not a [SharepointError]: it passes through the handler of
    upload_file and is raised to the caller after the one lookup round
    trip, with nothing logged. *)
Theorem upload_file_unresolved_library_raises :
  forall lib root_folder path content name w,
    is_Some (local_files w !! path) \/ truthy_bytes content = true ->
    next_fault w = None ->
    length (List.filter (title_is lib) (site_lists w url)) <> 1 ->
    upload_file self lib root_folder path content name w
    = (Raise (Exn AttributeError "'NoneType' object has no attribute 'root_folder'"),
       sent (ReqListsFilter url (odata_eq "Title" lib)) w).
Proof.
  intros lib root_folder path content name w Hin Hf Hn.
  destruct (local_files w !! path) as [data|] eqn:Hp.
  - rewrite (upload_file_with_local_file _ _ _ _ _ _ _ Hp).
    unfold try_except_SharepointError, bind, create_folder, bind.
    rewrite (find_folder_unresolved_library self lib root_folder w Hf Hn). reflexivity.
  - destruct Hin as [[data Hd]|Hc]; [discriminate|].
    unfold upload_file, try_except_SharepointError, bind, os_path_exists.
    rewrite Hp. rewrite bool_decide_eq_false_2 by (intros [? ?]; discriminate).
    rewrite Hc. simpl. unfold create_folder, bind.
    rewrite (find_folder_unresolved_library self lib root_folder w Hf Hn). reflexivity.
Qed.

(** X27: when file_path names no local file and bytes are passed,
    upload_file sends exactly those bytes under file_name as given, even
    an empty one: no name is derived from the path. *)
Theorem upload_file_sends_given_bytes :
  forall lib root_folder path content name w l f,
    local_files w !! path = None ->
    content <> [] ->
    reliable w ->
    List.filter (title_is lib) (site_lists w url) = [l] ->
    List.filter (name_is root_folder) (folders_of w url (list_id l)) = [f] ->
    exists w',
      upload_file self lib root_folder path (Some content) name w
      = (Ok (Some (FileIn (folder_id f) name)), w') /\
      requests w'
      = requests w ++ [ReqListsFilter url (odata_eq "Title" lib);
                       ReqFoldersFilter url (list_id l) (odata_eq "Name" root_folder);
                       ReqFolderUpload (ctx_url (ctx self)) (folder_id f) name content] /\
      remote w' = remote w.
Proof.
  intros lib root_folder path content name w l f Hp Hc Hr El Ef.
  destruct (create_folder_existing self lib root_folder w l f Hr El Ef)
    as (w1 & Hcf & Hrem & Hr1 & Hreq).
  unfold upload_file, try_except_SharepointError, bind, os_path_exists.
  rewrite Hp. rewrite bool_decide_eq_false_2 by (intros [? ?]; discriminate).
  destruct content as [|b content]; [congruence|]. simpl.
  fold url in Hcf, Hreq. rewrite Hcf.
  unfold folder_upload_file, bind.
  rewrite (execute_query_answered _ _ (reliable_next _ Hr1)).
  eexists. split; [reflexivity|]. split; [|exact Hrem].
  simpl. rewrite Hreq, <- app_assoc. reflexivity.
Qed.

End UploadMore.

(** ** Further properties: document libraries *)

Section LibrariesMore.

Variable self : SharepointAPI.
Let url := web_url (web self).

Lemma filter_title_nil_negb name ls :
  List.filter (title_is name) ls = [] ->
  List.filter (fun x => negb (title_is name x)) ls = ls.
Proof.
  induction ls as [|a ls IH]; simpl; [reflexivity|].
  destruct (title_is name a); simpl; [discriminate|].
  intros H. rewrite (IH H). reflexivity.
Qed.

(** X12: create_document_library on a title no library bears creates one
    document library with that title, the given description and no
    folder; a second call with the same title returns that same library
    and leaves the remote site as the first call left it. *)
Theorem create_document_library_find_or_create :
  forall name description description' w,
    reliable w ->
    List.filter (title_is name) (site_lists w url) = [] ->
    exists l w1 w2,
      create_document_library self name description w = (Ok l, w1) /\
      l = mkDocList (fresh_id (site_lists w url)) name description
                    DocumentLibrary_template [] /\
      site_lists w1 url = site_lists w url ++ [l] /\
      create_document_library self name description' w1 = (Ok l, w2) /\
      remote w2 = remote w1.
Proof.
  intros name description description' w Hr Hn.
  unfold url in *. unfold create_document_library, bind.
  rewrite (get_document_library_from_name_answered _ _ _ (reliable_next _ Hr)).
  rewrite Hn.
  rewrite lists_add_answered by (apply reliable_next, reliable_sent, Hr).
  rewrite site_lists_sent.
  set (l := mkDocList _ name description _ []).
  set (w1 := set_site_lists _ _ _).
  assert (Hr1 : reliable w1) by (apply reliable_set; do 2 apply reliable_sent; exact Hr).
  assert (Hs1 : site_lists w1 (web_url (web self))
                = site_lists w (web_url (web self)) ++ [l]) by apply site_lists_set.
  exists l, w1. eexists. split; [reflexivity|]. split; [reflexivity|].
  split; [exact Hs1|].
  rewrite (get_document_library_from_name_answered _ _ _ (reliable_next _ Hr1)).
  rewrite Hs1, List.filter_app, Hn. simpl.
  unfold title_is at 1. simpl. rewrite String.eqb_refl.
  split; reflexivity.
Qed.

Lemma execute_query_remote q w r w' :
  execute_query q w = (r, w') -> remote w' = remote w.
Proof.
  unfold execute_query. destruct (faults w) as [|[e|] fs]; intros [= _ <-]; reflexivity.
Qed.

Lemma get_document_library_from_name_remote name w r w' :
  get_document_library_from_name self name w = (r, w') -> remote w' = remote w.
Proof.
  unfold get_document_library_from_name, lists_filter_title, bind, get_world, ret.
  destruct (execute_query _ w) as [[[]|e] w1] eqn:E; intros [= _ <-];
    eapply execute_query_remote, E.
Qed.

Lemma lists_add_remote title description template w r w' :
  lists_add url title description template w = (r, w') ->
  remote w' = remote w \/
  exists l, list_title l = title /\
            remote w' = <[url := site_lists w url ++ [l]]> (remote w).
Proof.
  unfold lists_add, bind, get_world, modify_world, ret.
  destruct (execute_query _ w) as [[[]|e] w1] eqn:E; intros [= _ <-];
    pose proof (execute_query_remote _ _ _ _ E) as Hrem.
  - right.
    exists (mkDocList (fresh_id (site_lists w1 url)) title description template []).
    split; [reflexivity|].
    unfold set_site_lists, site_lists. simpl. rewrite Hrem. reflexivity.
  - left. exact Hrem.
Qed.

(** X13: whatever the service answers, create_document_library leaves
    the libraries of the site as they were or appends one library bearing
    the requested title; it never removes or alters a library, and it does
    not touch the other sites. *)
Theorem create_document_library_only_appends :
  forall name description w r w',
    create_document_library self name description w = (r, w') ->
    (site_lists w' url = site_lists w url \/
     exists l, list_title l = name /\ site_lists w' url = site_lists w url ++ [l]) /\
    (forall other, other <> url -> site_lists w' other = site_lists w other).
Proof.
  intros name description w r w'. unfold create_document_library, bind.
  destruct (get_document_library_from_name self name w) as [[[e|]|e] w1] eqn:E1;
    pose proof (get_document_library_from_name_remote _ _ _ _ E1) as H1.
  - intros [= _ <-]. unfold site_lists. rewrite H1. auto.
  - intros H2. apply lists_add_remote in H2 as [H2|(l & Hl & H2)]; unfold site_lists.
    + rewrite H2, H1. auto.
    + rewrite H2, H1. split.
      * right. exists l. split; [exact Hl|]. rewrite lookup_insert_eq. simpl.
        unfold site_lists. rewrite H1. reflexivity.
      * intros other Ho. rewrite lookup_insert_ne by congruence. reflexivity.
  - intros [= _ <-]. unfold site_lists. rewrite H1. auto.
Qed.

End LibrariesMore.

(** ** Further properties: deleting a library *)

Section DeleteMore.

Variable self : SharepointAPI.

Lemma list_delete_object_answered l w :
  next_fault w = None ->
  list_delete_object (web_url (web self)) l w
  = (Ok tt,
     set_site_lists (web_url (web self))
       (remove_list (list_id l) (site_lists w (web_url (web self))))
       (sent (ReqListDelete (web_url (web self)) (list_id l)) w)).
Proof.
  intros H. unfold list_delete_object, bind, get_world, modify_world.
  rewrite (execute_query_answered _ _ H). reflexivity.
Qed.

Lemma remove_list_single name l ls :
  List.NoDup (List.map list_id ls) ->
  List.filter (title_is name) ls = [l] ->
  remove_list (list_id l) ls = List.filter (fun x => negb (title_is name x)) ls.
Proof.
  induction ls as [|a ls IH]; simpl; [discriminate|].
  intros Hnd Hf. apply NoDup_cons_iff in Hnd as [Hna Hnd].
  destruct (title_is name a) eqn:Ea; simpl.
  - injection Hf as -> Hf. rewrite Nat.eqb_refl.
    symmetry. apply filter_title_nil_negb, Hf.
  - assert (Hin : In l ls).
    { apply (proj1 (List.filter_In (title_is name) l ls)). rewrite Hf. left. reflexivity. }
    destruct (Nat.eqb (list_id a) (list_id l)) eqn:En.
    + apply Nat.eqb_eq in En. exfalso. apply Hna. rewrite En.
      apply in_map, Hin.
    + rewrite (IH Hnd Hf). reflexivity.
Qed.

Lemma filter_title_negb name ls :
  List.filter (title_is name) (List.filter (fun x => negb (title_is name x)) ls) = [].
Proof.
  induction ls as [|a ls IH]; simpl; [reflexivity|].
  destruct (title_is name a) eqn:Ea; simpl; [exact IH|]. rewrite Ea. exact IH.
Qed.

Lemma remove_list_fresh ls l :
  list_id l = fresh_id ls -> remove_list (fresh_id ls) (ls ++ [l]) = ls.
Proof.
  intros Hl.
  assert (H : forall ms, (forall x, In x ms -> list_id x <= max_id ls) ->
                         remove_list (fresh_id ls) (ms ++ [l]) = ms).
  { induction ms as [|a ms IH]; intros Hb; simpl.
    - rewrite Hl, Nat.eqb_refl. reflexivity.
    - assert (Ha : list_id a <= max_id ls) by (apply Hb; left; reflexivity).
      replace (Nat.eqb (list_id a) (fresh_id ls)) with false
        by (symmetry; apply Nat.eqb_neq; unfold fresh_id; lia).
      rewrite IH; [reflexivity|]. intros x Hx. apply Hb. right. exact Hx. }
  apply H. intros x Hx. apply list_id_le_max_id, Hx.
Qed.

Lemma delete_document_library_noop name w :
  next_fault w = None ->
  length (List.filter (title_is name) (site_lists w (web_url (web self)))) <> 1 ->
  delete_document_library self name w
  = (Ok tt, sent (ReqListsFilter (web_url (web self)) (odata_eq "Title" name)) w).
Proof.
  intros Hf Hn. unfold delete_document_library, bind.
  rewrite (get_document_library_from_name_answered _ _ _ Hf).
  destruct (List.filter _ _) as [|l [|l' ls]]; simpl in *; try reflexivity.
  congruence.
Qed.

(** X14: delete_document_library deletes nothing when no library or
    several libraries bear the title: the call returns after the one
    lookup round trip, and the libraries of every site are as before. *)
Theorem delete_document_library_unresolved :
  forall name w,
    next_fault w = None ->
    length (List.filter (title_is name) (site_lists w (web_url (web self)))) <> 1 ->
    exists w',
      delete_document_library self name w = (Ok tt, w') /\
      remote w' = remote w /\
      requests w'
      = requests w ++ [ReqListsFilter (web_url (web self)) (odata_eq "Title" name)].
Proof.
  intros name w Hf Hn. rewrite (delete_document_library_noop _ _ Hf Hn).
  eexists. repeat split.
Qed.

(** X15: when exactly one library bears the title (identifiers being
    unique in the site), delete_document_library removes that library and
    no other, keeping the order of the rest; the title then resolves to
    nothing, and a second delete leaves the site unchanged. *)
Theorem delete_document_library_removes_the_match :
  forall name w l,
    reliable w ->
    List.NoDup (List.map list_id (site_lists w (web_url (web self)))) ->
    List.filter (title_is name) (site_lists w (web_url (web self))) = [l] ->
    exists w1 w2,
      delete_document_library self name w = (Ok tt, w1) /\
      site_lists w1 (web_url (web self))
      = List.filter (fun x => negb (title_is name x)) (site_lists w (web_url (web self))) /\
      fst (get_document_library_from_name self name w1) = Ok None /\
      delete_document_library self name w1 = (Ok tt, w2) /\
      remote w2 = remote w1.
Proof.
  intros name w l Hr Hnd Hl. unfold delete_document_library at 1. unfold bind.
  rewrite (get_document_library_from_name_answered _ _ _ (reliable_next _ Hr)), Hl.
  rewrite list_delete_object_answered by (apply reliable_next, reliable_sent, Hr).
  rewrite site_lists_sent, (remove_list_single name l _ Hnd Hl).
  set (w1 := set_site_lists _ _ _).
  assert (Hr1 : reliable w1) by (apply reliable_set; do 2 apply reliable_sent; exact Hr).
  assert (Hs1 : site_lists w1 (web_url (web self))
                = List.filter (fun x => negb (title_is name x))
                    (site_lists w (web_url (web self)))) by apply site_lists_set.
  assert (Hn1 : List.filter (title_is name) (site_lists w1 (web_url (web self))) = [])
    by (rewrite Hs1; apply filter_title_negb).
  exists w1. eexists. split; [reflexivity|]. split; [exact Hs1|].
  rewrite (get_document_library_from_name_answered _ _ _ (reliable_next _ Hr1)), Hn1.
  split; [reflexivity|].
  rewrite delete_document_library_noop
    by (try apply reliable_next, Hr1; rewrite Hn1; simpl; lia).
  split; reflexivity.
Qed.

(** X16: creating a library under a title no library bears and then
    deleting it by that title gives back the libraries the site had. *)
Theorem create_then_delete_document_library :
  forall name description w,
    reliable w ->
    List.filter (title_is name) (site_lists w (web_url (web self))) = [] ->
    exists l w1 w2,
      create_document_library self name description w = (Ok l, w1) /\
      delete_document_library self name w1 = (Ok tt, w2) /\
      site_lists w2 (web_url (web self)) = site_lists w (web_url (web self)).
Proof.
  intros name description w Hr Hn.
  unfold create_document_library, bind.
  rewrite (get_document_library_from_name_answered _ _ _ (reliable_next _ Hr)), Hn.
  rewrite lists_add_answered by (apply reliable_next, reliable_sent, Hr).
  rewrite site_lists_sent.
  set (l := mkDocList _ name description _ []).
  set (w1 := set_site_lists _ _ _).
  assert (Hr1 : reliable w1) by (apply reliable_set; do 2 apply reliable_sent; exact Hr).
  assert (Hs1 : site_lists w1 (web_url (web self))
                = site_lists w (web_url (web self)) ++ [l]) by apply site_lists_set.
  exists l, w1. eexists. split; [reflexivity|].
  unfold delete_document_library, bind.
  rewrite (get_document_library_from_name_answered _ _ _ (reliable_next _ Hr1)).
  rewrite Hs1, List.filter_app, Hn. simpl.
  unfold title_is at 1. simpl. rewrite String.eqb_refl.
  rewrite list_delete_object_answered by (apply reliable_next, reliable_sent, Hr1).
  split; [reflexivity|].
  rewrite site_lists_set, site_lists_sent, Hs1.
  apply remove_list_fresh. reflexivity.
Qed.

End DeleteMore.

(** ** Further properties: listing libraries *)

Section ListingMore.

Variable self : SharepointAPI.
Variable lower_non_ascii : string -> string.

Lemma folders_loop_named name folders rest acc :
  truthy name = true ->
  folders_loop lower_non_ascii name folders rest acc = acc ++ List.filter (title_contains lower_non_ascii name) rest.
Proof.
  intros Hn. revert acc. induction rest as [|l rest IH]; intros acc; simpl.
  - rewrite app_nil_r. reflexivity.
  - rewrite Hn. destruct (title_contains lower_non_ascii name l); rewrite IH; [|reflexivity].
    rewrite <- app_assoc. reflexivity.
Qed.

Lemma folders_loop_unnamed name folders :
  truthy name = false -> folders_loop lower_non_ascii name folders folders [] = folders.
Proof. intros Hn. destruct folders; simpl; [|rewrite Hn]; reflexivity. Qed.

Lemma lists_get_answered url w :
  next_fault w = None ->
  lists_get url w = (Ok (site_lists w url), sent (ReqListsGet url) w).
Proof.
  intros H. unfold lists_get, bind, get_world, ret.
  rewrite (execute_query_answered _ _ H). reflexivity.
Qed.

Lemma get_list_of_folders_answered name w :
  next_fault w = None ->
  get_list_of_folders lower_non_ascii self name w
  = (Ok (Some (if truthy name
               then List.filter (title_contains lower_non_ascii name) (site_lists w (ctx_url (ctx self)))
               else site_lists w (ctx_url (ctx self)))),
     sent (ReqListsGet (ctx_url (ctx self))) w).
Proof.
  intros H. unfold get_list_of_folders, try_except_SharepointError, bind.
  rewrite (lists_get_answered _ _ H). unfold ret.
  destruct (truthy name) eqn:Hn.
  - rewrite (folders_loop_named _ _ _ _ Hn). reflexivity.
  - rewrite (folders_loop_unnamed _ _ Hn). reflexivity.
Qed.

(** X17: once the query is answered, get_list_of_folders returns, in the
    order of the site, exactly the libraries whose lower-cased title
    contains the lower-cased name, and every library when the name is
    empty; the loop with its accumulator is a filter.  The lower-casing is
    that of [str.lower], whatever it does to the letters outside A to Z. *)
Theorem get_list_of_folders_filters :
  forall name w,
    next_fault w = None ->
    exists ls,
      fst (get_list_of_folders lower_non_ascii self name w) = Ok (Some ls) /\
      (name = "" -> ls = site_lists w (ctx_url (ctx self))) /\
      (name <> "" ->
       ls = List.filter (title_contains lower_non_ascii name) (site_lists w (ctx_url (ctx self))) /\
       forall l, In l ls <->
                 In l (site_lists w (ctx_url (ctx self))) /\
                 occurs (py_lower lower_non_ascii name)
                        (py_lower lower_non_ascii (list_title l)) = true).
Proof.
  intros name w H. rewrite (get_list_of_folders_answered _ _ H). simpl.
  eexists. split; [reflexivity|]. split.
  - intros ->. reflexivity.
  - intros Hne. destruct name; [congruence|]. simpl truthy. cbv iota.
    split; [reflexivity|]. intros l. rewrite List.filter_In. reflexivity.
Qed.




Lemma occurs_refl s : occurs s s = true.
Proof.
  assert (H : String.prefix s s = true)
    by (pose proof (prefix_app s "") as H; rewrite string_app_nil_r in H; exact H).
  destruct s; simpl in *; [reflexivity|]. rewrite H. reflexivity.
Qed.

(** X19: on a session whose context and web root are bound to the same
    URL, a library that get_document_library_from_name returns for a name
    is among the libraries get_list_of_folders lists for that name. *)
Theorem get_list_of_folders_lists_exact_match :
  forall name w l,
    ctx_url (ctx self) = web_url (web self) ->
    next_fault w = None ->
    fst (get_document_library_from_name self name w) = Ok (Some l) ->
    exists ls,
      fst (get_list_of_folders lower_non_ascii self name w) = Ok (Some ls) /\ In l ls.
Proof.
  intros name w l Hu Hf Hl.
  rewrite (get_document_library_from_name_answered _ _ _ Hf) in Hl. simpl in Hl.
  rewrite (get_list_of_folders_answered _ _ Hf). simpl. rewrite Hu.
  eexists. split; [reflexivity|].
  assert (Hin : In l (List.filter (title_is name) (site_lists w (web_url (web self))))).
  { destruct (List.filter _ _) as [|a [|b m]]; try discriminate.
    injection Hl as ->. left. reflexivity. }
  apply List.filter_In in Hin as [Hin Ht].
  destruct (truthy name); [|exact Hin].
  apply List.filter_In. split; [exact Hin|].
  unfold title_contains. apply title_is_spec in Ht. rewrite Ht. apply occurs_refl.
Qed.

(** X20: when the service answers the listing with a [SharepointError],
    get_list_of_folders logs it and returns [None], not an empty list; an
    error of another class is raised to the caller. *)
Theorem get_list_of_folders_refused :
  forall name w e,
    next_fault w = Some e ->
    get_list_of_folders lower_non_ascii self name w
    = if is_SharepointError e
      then (Ok None,
            logged ERROR (" --- Unable to access folder items: " +:+ exn_msg e +:+ " ---")
              (sent (ReqListsGet (ctx_url (ctx self))) w))
      else (Raise e, sent (ReqListsGet (ctx_url (ctx self))) w).
Proof.
  intros name w e H. unfold get_list_of_folders, try_except_SharepointError, bind, lists_get, bind.
  rewrite (execute_query_failed _ _ _ H).
  destruct (is_SharepointError e); reflexivity.
Qed.

End ListingMore.

(** ** Further properties: downloads and the guarded methods *)

Section DownloadMore.

Variable self : SharepointAPI.
Variable lower_non_ascii : string -> string.
Variable open_refusal : string -> option os_error.
Variable remote_content : string -> File -> bytes.
Variable resource_url : string -> string -> string.

Let url := web_url (web self).

Lemma truthy_nonempty s : s <> "" -> truthy s = true.
Proof. destruct s; [congruence | reflexivity]. Qed.

Lemma get_file_run file_url w :
  server_url self <> "" ->
  let path := last_part (split_go (server_url self) 0 "" file_url) in
  get_file self file_url w
  = match next_fault w with
    | Some e => (Raise e, sent (ReqFileGet url path) w)
    | None => (Ok (FileAt path), sent (ReqFileGet url path) w)
    end.
Proof.
  intros Hne path. unfold get_file, str_split, bind.
  rewrite (truthy_nonempty _ Hne). simpl. fold path. fold url.
  destruct (next_fault w) as [e|] eqn:E.
  - rewrite (execute_query_failed _ _ _ E). reflexivity.
  - rewrite (execute_query_answered _ _ E). reflexivity.
Qed.

(** X21: download_file opens the local file before it asks the service.
    When download_path can be opened for writing and either round trip
    fails, the file at download_path is left empty, whatever it held
    before: the call logs and returns [None] for a [SharepointError], and
    raises an error of another class. *)
Theorem download_file_failure_leaves_empty_file :
  forall file_url download_path w e,
    download_path <> "" ->
    open_refusal download_path = None ->
    server_url self <> "" ->
    (next_fault w = Some e \/
     (next_fault w = None /\
      next_fault (sent (ReqFileGet url
                          (last_part (split_go (server_url self) 0 "" file_url))) w)
      = Some e)) ->
    exists w',
      download_file open_refusal remote_content self file_url download_path w
      = (if is_SharepointError e then Ok None else Raise e, w') /\
      local_files w' !! download_path = Some [] /\
      log w' = if is_SharepointError e
               then log w ++ [(ERROR, "--- Error with download: " +:+ exn_msg e +:+ " ---")]
               else log w.
Proof.
  intros file_url download_path w e Hd Ho Hs Hf.
  unfold download_file, try_except_SharepointError, bind, open_wb, modify_world.
  rewrite (truthy_nonempty _ Hd), Ho, (get_file_run _ _ Hs). fold url.
  set (path := last_part _) in *.
  change (next_fault (write_local download_path [] w)) with (next_fault w).
  destruct Hf as [Hf|[Hf1 Hf2]].
  - rewrite Hf. destruct (is_SharepointError e); eexists;
      (split; [reflexivity|]); (split; [|reflexivity]);
      simpl; apply lookup_insert_eq.
  - rewrite Hf1. unfold file_download, bind.
    change (next_fault (sent (ReqFileGet url path) (write_local download_path [] w)))
      with (next_fault (sent (ReqFileGet url path) w)) in *.
    rewrite (execute_query_failed _ _ e) by exact Hf2.
    destruct (is_SharepointError e); eexists;
      (split; [reflexivity|]); (split; [|reflexivity]);
      simpl; apply lookup_insert_eq.
Qed.

(** X22: when download_path can be opened for writing and both round
    trips are answered, download_file writes the content the service holds
    for the fetched path to download_path, leaves every other local file
    as it was, logs the download and returns the file handle. *)
Theorem download_file_writes_content :
  forall file_url download_path w,
    download_path <> "" ->
    open_refusal download_path = None ->
    server_url self <> "" ->
    let file := FileAt (last_part (split_go (server_url self) 0 "" file_url)) in
    next_fault w = None ->
    next_fault (sent (ReqFileGet url
                        (last_part (split_go (server_url self) 0 "" file_url))) w) = None ->
    exists w',
      download_file open_refusal remote_content self file_url download_path w = (Ok (Some file), w') /\
      local_files w' !! download_path = Some (remote_content url file) /\
      (forall other, other <> download_path ->
                     local_files w' !! other = local_files w !! other) /\
      log w' = log w ++ [(INFO, "[Ok] file has been downloaded: " +:+ download_path)] /\
      remote w' = remote w.
Proof.
  intros file_url download_path w Hd Hopen Hs file H1 H2.
  unfold download_file, try_except_SharepointError, bind, open_wb, modify_world.
  rewrite (truthy_nonempty _ Hd), Hopen, (get_file_run _ _ Hs). fold url.
  set (path := last_part _) in *.
  change (next_fault (write_local download_path [] w)) with (next_fault w).
  rewrite H1. unfold file_download, bind, modify_world.
  rewrite (execute_query_answered _ (sent (ReqFileGet url path) (write_local download_path [] w)))
    by exact H2.
  eexists. split; [reflexivity|]. simpl.
  split; [apply lookup_insert_eq|].
  split; [|split; reflexivity].
  intros other Ho. rewrite !lookup_insert_ne by congruence. reflexivity.
Qed.

(** With the default, empty download_path there is no file to open:
    download_file raises [FileNotFoundError] to its caller before anything
    is sent, leaving the world as it was. *)
Lemma download_file_empty_path :
  forall file_url w,
    download_file open_refusal remote_content self file_url "" w
    = (Raise (Exn FileNotFoundError ""), w).
Proof. reflexivity. Qed.

(** X28: when the file system refuses to open download_path for writing
    (its directory is missing, it is a directory, or it may not be
    written), download_file raises that [OSError] to its caller before
    anything is sent: no file is created, nothing is logged and the world
    is as it was. *)
Theorem download_file_unopenable_path :
  forall file_url download_path w err,
    open_refusal download_path = Some err ->
    download_file open_refusal remote_content self file_url download_path w
    = (Raise (if truthy download_path then os_exn err download_path
              else Exn FileNotFoundError download_path), w) /\
    is_SharepointError (os_exn err download_path) = false.
Proof.
  intros file_url download_path w err Ho.
  unfold download_file, try_except_SharepointError, bind, open_wb.
  destruct (truthy download_path); [rewrite Ho|]; unfold raise;
    destruct err; split; reflexivity.
Qed.

Lemma try_except_SharepointError_guards {A} (body : M (option A)) msg w e w' :
  try_except_SharepointError body
    (fun error => do* logger ERROR (msg error) in ret None) w = (Raise e, w') ->
  is_SharepointError e = false.
Proof.
  unfold try_except_SharepointError, bind, logger, ret.
  destruct (body w) as [[a|e0] w0]; [discriminate|].
  destruct (is_SharepointError e0) eqn:E; [discriminate|].
  intros [= <- _]. exact E.
Qed.

(** X23: no [SharepointError] leaves upload_file, download_file,
    get_list_of_folders or upload_large_file: whatever the arguments and
    whatever the service answers, an exception these methods raise is of
    another class. *)
Theorem guarded_methods_swallow_SharepointError :
  forall e w w',
    (forall lib root_folder path content name,
       upload_file self lib root_folder path content name w = (Raise e, w') ->
       is_SharepointError e = false) /\
    (forall file_url download_path,
       download_file open_refusal remote_content self file_url download_path w = (Raise e, w') ->
       is_SharepointError e = false) /\
    (forall name,
       get_list_of_folders lower_non_ascii self name w = (Raise e, w') ->
       is_SharepointError e = false) /\
    (forall lib root_folder path,
       upload_large_file resource_url self lib root_folder path w = (Raise e, w') ->
       is_SharepointError e = false).
Proof.
  intros e w w'. repeat split.
  - intros lib root_folder path content name. unfold upload_file.
    apply try_except_SharepointError_guards.
  - intros file_url download_path. unfold download_file.
    apply try_except_SharepointError_guards.
  - intros name. unfold get_list_of_folders.
    apply try_except_SharepointError_guards.
  - intros lib root_folder path.
    unfold upload_large_file, bind, os_path_getsize, try_except_SharepointError, logger, ret.
    destruct (local_files w !! path); [|intros [= <- _]; reflexivity].
    destruct (execute_query _ w) as [[[]|e0] w0]; [discriminate|].
    destruct (is_SharepointError e0) eqn:E; [discriminate|].
    intros [= <- _]. exact E.
Qed.

End DownloadMore.

(** ** Further properties: folders *)

Section FoldersMore.

Variable self : SharepointAPI.
Variable lower_non_ascii : string -> string.

Lemma update_list_keeps f id ls :
  List.map list_title (update_list id (add_folder f) ls) = List.map list_title ls /\
  List.map list_id (update_list id (add_folder f) ls) = List.map list_id ls.
Proof.
  induction ls as [|l ls [IH1 IH2]]; simpl; [split; reflexivity|].
  destruct (Nat.eqb (list_id l) id); simpl; [split; reflexivity|].
  rewrite IH1, IH2. split; reflexivity.
Qed.

Lemma find_folder_remote lib name w r w' :
  find_folder self lib name w = (r, w') -> remote w' = remote w.
Proof.
  unfold find_folder, bind.
  destruct (get_document_library_from_name self lib w) as [[[l|]|e] w1] eqn:E1;
    pose proof (get_document_library_from_name_remote _ _ _ _ _ E1) as H1;
    simpl; try (intros [= _ <-]; exact H1).
  unfold folders_filter_name, bind, get_world, ret.
  destruct (execute_query _ w1) as [[[]|e] w2] eqn:E2;
    pose proof (execute_query_remote _ _ _ _ E2) as H2.
  - destruct (Nat.eqb _ 1); intros [= _ <-]; congruence.
  - intros [= _ <-]. congruence.
Qed.

Lemma folders_add_remote lst name w r w' :
  folders_add (web_url (web self)) lst name w = (r, w') ->
  remote w' = remote w \/
  exists f, folder_name f = name /\
            remote w'
            = <[web_url (web self) :=
                  update_list (list_id lst) (add_folder f)
                    (site_lists w (web_url (web self)))]> (remote w).
Proof.
  unfold folders_add, bind, get_world, modify_world, ret.
  destruct (execute_query _ w) as [[[]|e] w1] eqn:E; intros [= _ <-];
    pose proof (execute_query_remote _ _ _ _ E) as Hrem.
  - right. exists (mkFolder (fresh_id (site_lists w1 (web_url (web self)))) name).
    split; [reflexivity|].
    unfold set_site_lists, site_lists. simpl. rewrite Hrem. reflexivity.
  - left. exact Hrem.
Qed.

Lemma grown_by_refl name l : grown_by name l l.
Proof. unfold grown_by. auto 10. Qed.

Lemma update_list_grows f id ls :
  Forall2 (grown_by (folder_name f)) ls (update_list id (add_folder f) ls) /\
  folder_count (update_list id (add_folder f) ls) <= S (folder_count ls).
Proof.
  assert (Hrefl : forall ms, Forall2 (grown_by (folder_name f)) ms ms)
    by (induction ms; constructor; [apply grown_by_refl | assumption]).
  induction ls as [|l ls [IH1 IH2]]; simpl; [split; [constructor | lia]|].
  destruct (Nat.eqb (list_id l) id); simpl.
  - split.
    + constructor; [|apply Hrefl]. unfold grown_by. simpl.
      repeat (split; [reflexivity|]). right. eauto.
    + unfold folder_count. simpl. rewrite length_app. simpl. lia.
  - split.
    + constructor; [apply grown_by_refl | exact IH1].
    + unfold folder_count in *. simpl. lia.
Qed.

Lemma Forall2_grown_by_refl name ls : Forall2 (grown_by name) ls ls.
Proof. induction ls; constructor; [apply grown_by_refl | assumption]. Qed.

(** X24: whatever the service answers, create_folder leaves the
    libraries of the site in place and in order, each with its identifier,
    title, description and template, and with the folders it had, to which
    at most one folder of the requested name is appended; over the whole
    site at most one folder is added, and the other sites are not
    touched. *)
Theorem create_folder_keeps_libraries :
  forall lib name w r w',
    create_folder self lib name w = (r, w') ->
    Forall2 (grown_by name) (site_lists w (web_url (web self)))
            (site_lists w' (web_url (web self))) /\
    folder_count (site_lists w' (web_url (web self)))
    <= S (folder_count (site_lists w (web_url (web self)))) /\
    List.map list_title (site_lists w' (web_url (web self)))
    = List.map list_title (site_lists w (web_url (web self))) /\
    List.map list_id (site_lists w' (web_url (web self)))
    = List.map list_id (site_lists w (web_url (web self))) /\
    (forall other, other <> web_url (web self) ->
                   site_lists w' other = site_lists w other).
Proof.
  intros lib name w r w'. unfold create_folder, bind.
  assert (Hsame : remote w' = remote w ->
    Forall2 (grown_by name) (site_lists w (web_url (web self)))
            (site_lists w' (web_url (web self))) /\
    folder_count (site_lists w' (web_url (web self)))
    <= S (folder_count (site_lists w (web_url (web self)))) /\
    List.map list_title (site_lists w' (web_url (web self)))
    = List.map list_title (site_lists w (web_url (web self))) /\
    List.map list_id (site_lists w' (web_url (web self)))
    = List.map list_id (site_lists w (web_url (web self))) /\
    (forall other, other <> web_url (web self) ->
                   site_lists w' other = site_lists w other)).
  { intros H. unfold site_lists. rewrite H.
    split; [apply Forall2_grown_by_refl|]. split; [lia|]. auto. }
  destruct (find_folder self lib name w) as [[[f|]|e] w1] eqn:E1;
    pose proof (find_folder_remote _ _ _ _ _ E1) as H1;
    try (intros [= _ <-]; apply Hsame; exact H1).
  destruct (get_document_library_from_name self lib w1) as [[[l|]|e] w2] eqn:E2;
    pose proof (get_document_library_from_name_remote _ _ _ _ _ E2) as H2;
    simpl; try (intros [= _ <-]; apply Hsame; congruence).
  intros H3. apply folders_add_remote in H3 as [H3|(f & Hf & H3)].
  - apply Hsame. congruence.
  - clear Hsame.
    assert (Hs : site_lists w2 (web_url (web self)) = site_lists w (web_url (web self)))
      by (unfold site_lists; rewrite H2, H1; reflexivity).
    assert (Hs' : site_lists w' (web_url (web self))
                  = update_list (list_id l) (add_folder f)
                      (site_lists w (web_url (web self)))).
    { unfold site_lists at 1. rewrite H3, lookup_insert_eq. simpl. rewrite Hs.
      reflexivity. }
    rewrite Hs'. subst name.
    split; [apply update_list_grows|]. split; [apply update_list_grows|].
    split; [apply update_list_keeps|]. split; [apply update_list_keeps|].
    intros other Ho. unfold site_lists. rewrite H3, lookup_insert_ne by congruence.
    rewrite H2, H1. reflexivity.
Qed.

(** X25: with the library resolved, find_folder returns a folder exactly
    when it is the only folder of the library's root bearing the name,
    returns [None] when no folder or several bear it, and changes nothing
    on the remote site. *)
Theorem find_folder_single_match :
  forall lib name w l,
    reliable w ->
    List.filter (title_is lib) (site_lists w (web_url (web self))) = [l] ->
    let matching :=
      List.filter (name_is name) (folders_of w (web_url (web self)) (list_id l)) in
    (forall f, In f matching <->
               In f (folders_of w (web_url (web self)) (list_id l)) /\ folder_name f = name) /\
    (forall f, fst (find_folder self lib name w) = Ok (Some f) <-> matching = [f]) /\
    (fst (find_folder self lib name w) = Ok None
     <-> length matching = 0 \/ 2 <= length matching) /\
    remote (snd (find_folder self lib name w)) = remote w.
Proof.
  intros lib name w l Hr Hl matching.
  rewrite (find_folder_resolved self lib name w l Hr Hl). simpl. fold matching.
  split; [|split; [|split; [|reflexivity]]].
  - intros f. unfold matching. rewrite List.filter_In. unfold name_is.
    rewrite String.eqb_eq. reflexivity.
  - intros f. destruct matching as [|a [|b m]]; split; intros E;
      try discriminate; congruence.
  - destruct matching as [|a [|b m]]; simpl; split; intros E;
      try discriminate; try reflexivity; try (left; reflexivity); try (right; lia).
    destruct E as [E|E]; [discriminate | lia].
Qed.

(** X26: on a session whose context and web root are bound to the same
    URL, get_list_of_folders without a name returns a list exactly when
    get_ctx_document_libraries returns that list. *)
Theorem listing_methods_agree :
  forall w ls,
    ctx_url (ctx self) = web_url (web self) ->
    fst (get_list_of_folders lower_non_ascii self "" w) = Ok (Some ls)
    <-> fst (get_ctx_document_libraries self w) = Ok ls.
Proof.
  intros w ls Hu.
  unfold get_list_of_folders, get_ctx_document_libraries,
    try_except_SharepointError, bind. rewrite Hu.
  destruct (lists_get (web_url (web self)) w) as [[folders|e] w1]; simpl.
  - unfold ret. simpl. rewrite (folders_loop_unnamed lower_non_ascii "" folders eq_refl).
    split; intros [= ->]; reflexivity.
  - destruct (is_SharepointError e); simpl; split; discriminate.
Qed.

End FoldersMore.

(** ** The further properties at concrete inputs *)

Import MoreSamples.

Lemma init_reads_secrets_witness :
  SharepointAPI_init sample_json_load "Engineering" "https://contoso.example"
    secrets_path "ignored-id" "ignored-secret" w_secrets
  = (Ok (session_for "Engineering" "https://contoso.example"
           (JStr "file-id") (JStr "file-secret")),
     sent (ReqSiteGet contoso) (sent (ReqWebGet contoso) w_secrets)).
Proof.
  apply (init_reads_secrets sample_json_load "Engineering" "https://contoso.example"
           secrets_path "ignored-id" "ignored-secret" w_secrets secrets_bytes secrets_json);
    reflexivity.
Defined.

Lemma init_unusable_secrets_witness :
  exists e,
    SharepointAPI_init sample_json_load "Finance" "https://contoso.example"
      secrets_path "app-id" "app-secret" w_secrets = (Raise e, w_secrets) /\
    is_SharepointError e = false.
Proof.
  apply (init_unusable_secrets sample_json_load "Finance" "https://contoso.example"
           secrets_path "app-id" "app-secret" w_secrets); reflexivity.
Defined.

Lemma init_returns_bound_session_witness :
  exists s w',
    SharepointAPI_init no_json "Engineering" "https://contoso.example" ""
      "app-id" "app-secret" w0 = (Ok s, w') /\
    site s = "Engineering" /\ server_url s = "https://contoso.example" /\
    bound_session s /\
    requests w' = requests w0 ++ [ReqWebGet (complete_url s); ReqSiteGet (complete_url s)] /\
    remote w' = remote w0 /\ local_files w' = local_files w0.
Proof.
  eexists _, _. split; [reflexivity|].
  eapply (init_returns_bound_session no_json "Engineering" "https://contoso.example" ""
            "app-id" "app-secret" w0).
  reflexivity.
Defined.

Lemma from_url_needs_configured_credentials_witness :
  from_url unconfigured_settings sample_pattern_match (SharepointAPI_cls no_json)
    engineering_url w0
  = (Raise (Exn Exception_ missing_credentials_msg), w0).
Proof.
  apply (from_url_needs_configured_credentials no_json unconfigured_settings
           sample_pattern_match engineering_url w0).
  - right. reflexivity.
  - intros matches H. vm_compute in H. injection H as <-.
    split; eexists; reflexivity.
Defined.

Lemma from_url_falls_back_on_refused_site_witness :
  from_url sample_settings sample_pattern_match (SharepointAPI_cls no_json)
    engineering_url w_refused
  = (Ok (session_for "Home" "https://intranet.example" (JStr "app-id") (JStr "app-secret")),
     sent (ReqSiteGet "https://intranet.example/sites/Home")
       (sent (ReqWebGet "https://intranet.example/sites/Home")
          (logged DEBUG
             ("The current location does not contain a site name using the standard site :"
              +:+ "503 Service Unavailable")
             (sent (ReqWebGet contoso) w_refused)))).
Proof.
  apply (proj1 (from_url_falls_back_on_refused_site no_json sample_settings
                  sample_pattern_match engineering_url w_refused
                  [("server_url", "https://contoso.example"); ("site_name", "Engineering")]
                  "Engineering" "https://contoso.example"
                  (Exn SharepointError "503 Service Unavailable")
                  eq_refl eq_refl eq_refl eq_refl eq_refl eq_refl));
    reflexivity.
Defined.

Lemma str_split_join_witness :
  exists pieces,
    str_split "a/b//c" "/" w0 = (Ok pieces, w0) /\ String.concat "/" pieces = "a/b//c".
Proof.
  apply (str_split_join "/" "a/b//c" w0). intros H. discriminate H.
Defined.

Lemma get_file_path_follows_server_url_witness :
  exists path,
    requests (snd (get_file api0 mirrored_url w0))
    = requests w0 ++ [ReqFileGet (web_url (web api0)) path] /\
    (mirrored_url = path \/
     exists before, mirrored_url = before +:+ server_url api0 +:+ path).
Proof.
  apply (get_file_path_follows_server_url api0 mirrored_url w0).
  intros H. discriminate H.
Defined.

Lemma os_path_basename_last_component_witness :
  os_path_basename "report.csv" = "report.csv" /\
  os_path_basename ("/tmp/out" +:+ "/" +:+ "report.csv") = "report.csv".
Proof. apply (os_path_basename_last_component "/tmp/out" "report.csv"). reflexivity. Defined.

Lemma upload_file_sends_local_file_witness :
  exists w',
    upload_file api0 "Documents" "reports" report_path (Some [Byte.x7a]) "" w0
    = (Ok (Some (FileIn 2 "report.csv")), w') /\
    requests w'
    = requests w0 ++ [ReqListsFilter contoso (odata_eq "Title" "Documents");
                      ReqFoldersFilter contoso 1 (odata_eq "Name" "reports");
                      ReqFolderUpload contoso 2 "report.csv" [Byte.x61; Byte.x62]] /\
    remote w' = remote w0.
Proof.
  apply (upload_file_sends_local_file api0 "Documents" "reports" report_path
           (Some [Byte.x7a]) "" w0 [Byte.x61; Byte.x62] docs (mkFolder 2 "reports"));
    try reflexivity.
  constructor.
Defined.


Lemma upload_file_unresolved_library_raises_witness :
  upload_file api0 "Archive" "reports" report_path None "" w0
  = (Raise (Exn AttributeError "'NoneType' object has no attribute 'root_folder'"),
     sent (ReqListsFilter contoso (odata_eq "Title" "Archive")) w0) /\
  upload_file api0 "Missing" "reports" "nope.txt" (Some [Byte.x7a]) "z.bin" w0
  = (Raise (Exn AttributeError "'NoneType' object has no attribute 'root_folder'"),
     sent (ReqListsFilter contoso (odata_eq "Title" "Missing")) w0).
Proof.
  split.
  - apply (upload_file_unresolved_library_raises api0 "Archive" "reports" report_path
             None "" w0); [left; eexists; reflexivity | reflexivity |].
    vm_compute. lia.
  - apply (upload_file_unresolved_library_raises api0 "Missing" "reports" "nope.txt"
             (Some [Byte.x7a]) "z.bin" w0); [right; reflexivity | reflexivity |].
    vm_compute. lia.
Defined.

Lemma create_document_library_find_or_create_witness :
  exists l w1 w2,
    create_document_library api0 "Invoices" "2024" w0 = (Ok l, w1) /\
    l = mkDocList (fresh_id (site_lists w0 contoso)) "Invoices" "2024"
                  DocumentLibrary_template [] /\
    site_lists w1 contoso = site_lists w0 contoso ++ [l] /\
    create_document_library api0 "Invoices" "other text" w1 = (Ok l, w2) /\
    remote w2 = remote w1.
Proof.
  apply (create_document_library_find_or_create api0 "Invoices" "2024" "other text" w0).
  - constructor.
  - reflexivity.
Defined.

Lemma create_document_library_only_appends_witness :
  (site_lists (snd (create_document_library api0 "Archive" "" w_refused)) contoso
   = site_lists w_refused contoso \/
   exists l, list_title l = "Archive" /\
             site_lists (snd (create_document_library api0 "Archive" "" w_refused)) contoso
             = site_lists w_refused contoso ++ [l]) /\
  (forall other, other <> contoso ->
     site_lists (snd (create_document_library api0 "Archive" "" w_refused)) other
     = site_lists w_refused other).
Proof.
  apply (create_document_library_only_appends api0 "Archive" "" w_refused
           (fst (create_document_library api0 "Archive" "" w_refused))).
  reflexivity.
Defined.

Lemma delete_document_library_unresolved_witness :
  exists w',
    delete_document_library api0 "Archive" w0 = (Ok tt, w') /\
    remote w' = remote w0 /\
    requests w' = requests w0 ++ [ReqListsFilter contoso (odata_eq "Title" "Archive")].
Proof.
  apply (delete_document_library_unresolved api0 "Archive" w0); [reflexivity|].
  vm_compute. lia.
Defined.

Lemma delete_document_library_removes_the_match_witness :
  exists w1 w2,
    delete_document_library api0 "Documents" w0 = (Ok tt, w1) /\
    site_lists w1 contoso
    = List.filter (fun x => negb (title_is "Documents" x)) (site_lists w0 contoso) /\
    fst (get_document_library_from_name api0 "Documents" w1) = Ok None /\
    delete_document_library api0 "Documents" w1 = (Ok tt, w2) /\
    remote w2 = remote w1.
Proof.
  apply (delete_document_library_removes_the_match api0 "Documents" w0 docs).
  - constructor.
  - vm_compute. repeat constructor; simpl; lia.
  - reflexivity.
Defined.

Lemma create_then_delete_document_library_witness :
  exists l w1 w2,
    create_document_library api0 "Invoices" "2024" w0 = (Ok l, w1) /\
    delete_document_library api0 "Invoices" w1 = (Ok tt, w2) /\
    site_lists w2 contoso = site_lists w0 contoso.
Proof.
  apply (create_then_delete_document_library api0 "Invoices" "2024" w0).
  - constructor.
  - reflexivity.
Defined.

Lemma get_list_of_folders_filters_witness :
  exists ls,
    fst (get_list_of_folders keep_text api0 "doc" w_listing) = Ok (Some ls) /\
    ("doc" = "" -> ls = site_lists w_listing contoso) /\
    ("doc" <> "" ->
     ls = List.filter (title_contains keep_text "doc") (site_lists w_listing contoso) /\
     forall l, In l ls <->
               In l (site_lists w_listing contoso) /\
               occurs (py_lower keep_text "doc") (py_lower keep_text (list_title l)) = true).
Proof. apply (get_list_of_folders_filters api0 keep_text "doc" w_listing). reflexivity. Defined.


Lemma get_list_of_folders_lists_exact_match_witness :
  exists ls,
    fst (get_list_of_folders keep_text api0 "Documents" w0) = Ok (Some ls) /\ In docs ls.
Proof.
  apply (get_list_of_folders_lists_exact_match api0 keep_text "Documents" w0 docs); reflexivity.
Defined.

Lemma get_list_of_folders_refused_witness :
  next_fault w_refused = Some (Exn SharepointError "503 Service Unavailable") /\
  get_list_of_folders keep_text api0 "doc" w_refused
  = (Ok None,
     logged ERROR (" --- Unable to access folder items: " +:+ "503 Service Unavailable"
                   +:+ " ---")
       (sent (ReqListsGet contoso) w_refused)).
Proof.
  split; [reflexivity|].
  apply (get_list_of_folders_refused api0 keep_text "doc" w_refused
           (Exn SharepointError "503 Service Unavailable")).
  reflexivity.
Defined.

Lemma download_file_failure_leaves_empty_file_witness :
  local_files w_refused !! report_path = Some [Byte.x61; Byte.x62] /\
  exists w',
    download_file sample_open_refusal sample_remote_content api0 engineering_url
      report_path w_refused
    = (Ok None, w') /\
    local_files w' !! report_path = Some [] /\
    log w' = log w_refused
             ++ [(ERROR, "--- Error with download: " +:+ "503 Service Unavailable" +:+ " ---")].
Proof.
  split; [reflexivity|].
  apply (download_file_failure_leaves_empty_file api0 sample_open_refusal
           sample_remote_content engineering_url report_path w_refused
           (Exn SharepointError "503 Service Unavailable")).
  - intros H. discriminate H.
  - reflexivity.
  - intros H. discriminate H.
  - left. reflexivity.
Defined.

Lemma download_file_writes_content_witness :
  exists w',
    download_file sample_open_refusal sample_remote_content api0 engineering_url
      report_path w0
    = (Ok (Some (FileAt "/sites/Engineering/Shared Documents/plan.docx")), w') /\
    local_files w' !! report_path
    = Some (sample_remote_content contoso
              (FileAt "/sites/Engineering/Shared Documents/plan.docx")) /\
    (forall other, other <> report_path ->
                   local_files w' !! other = local_files w0 !! other) /\
    log w' = log w0 ++ [(INFO, "[Ok] file has been downloaded: " +:+ report_path)] /\
    remote w' = remote w0.
Proof.
  apply (download_file_writes_content api0 sample_open_refusal sample_remote_content
           engineering_url report_path w0).
  - intros H. discriminate H.
  - reflexivity.
  - intros H. discriminate H.
  - reflexivity.
  - reflexivity.
Defined.

Lemma download_file_unopenable_path_witness :
  sample_open_refusal missing_dir_path = Some NoSuchDirectory /\
  download_file sample_open_refusal sample_remote_content api0 engineering_url
    missing_dir_path w0
  = (Raise (Exn FileNotFoundError missing_dir_path), w0).
Proof.
  split; [reflexivity|].
  apply (proj1 (download_file_unopenable_path api0 sample_open_refusal
                  sample_remote_content engineering_url missing_dir_path w0
                  NoSuchDirectory eq_refl)).
Defined.

Lemma guarded_methods_swallow_SharepointError_witness :
  upload_file api0 "Archive" "reports" report_path None "" w0
  = (Raise (Exn AttributeError "'NoneType' object has no attribute 'root_folder'"),
     sent (ReqListsFilter contoso (odata_eq "Title" "Archive")) w0) /\
  is_SharepointError
    (Exn AttributeError "'NoneType' object has no attribute 'root_folder'") = false.
Proof.
  split; [reflexivity|].
  apply (proj1 (guarded_methods_swallow_SharepointError api0 keep_text sample_open_refusal sample_remote_content
                  no_resource_url
                  (Exn AttributeError "'NoneType' object has no attribute 'root_folder'")
                  w0 (sent (ReqListsFilter contoso (odata_eq "Title" "Archive")) w0))
           "Archive" "reports" report_path None "").
  reflexivity.
Defined.

Lemma create_folder_keeps_libraries_witness :
  Forall2 (grown_by "drafts") (site_lists w0 contoso)
          (site_lists (snd (create_folder api0 "Documents" "drafts" w0)) contoso) /\
  folder_count (site_lists (snd (create_folder api0 "Documents" "drafts" w0)) contoso)
  <= S (folder_count (site_lists w0 contoso)) /\
  List.map list_title (site_lists (snd (create_folder api0 "Documents" "drafts" w0)) contoso)
  = List.map list_title (site_lists w0 contoso) /\
  List.map list_id (site_lists (snd (create_folder api0 "Documents" "drafts" w0)) contoso)
  = List.map list_id (site_lists w0 contoso) /\
  (forall other, other <> contoso ->
     site_lists (snd (create_folder api0 "Documents" "drafts" w0)) other
     = site_lists w0 other).
Proof.
  apply (create_folder_keeps_libraries api0 "Documents" "drafts" w0
           (fst (create_folder api0 "Documents" "drafts" w0))).
  reflexivity.
Defined.

Lemma find_folder_single_match_witness :
  fst (find_folder api0 "Documents" "reports" w0) = Ok (Some (mkFolder 2 "reports")) /\
  fst (find_folder api0 "Twins" "a" w0) = Ok None.
Proof.
  assert (Hr : reliable w0) by constructor.
  pose proof (find_folder_single_match api0 "Documents" "reports" w0 docs Hr eq_refl)
    as (_ & Hd & _).
  pose proof (find_folder_single_match api0 "Twins" "a" w0 twins Hr eq_refl)
    as (_ & _ & Ht & _).
  split; [apply Hd; reflexivity|].
  apply Ht. right. vm_compute. lia.
Defined.

Lemma listing_methods_agree_witness :
  fst (get_list_of_folders keep_text api0 "" w_listing) = Ok (Some (site_lists w_listing contoso))
  <-> fst (get_ctx_document_libraries api0 w_listing) = Ok (site_lists w_listing contoso).
Proof. apply (listing_methods_agree api0 keep_text w_listing). reflexivity. Defined.

Lemma upload_file_sends_given_bytes_witness :
  exists w',
    upload_file api0 "Documents" "reports" "nope.txt" (Some [Byte.x7a]) "" w0
    = (Ok (Some (FileIn 2 "")), w') /\
    requests w'
    = requests w0 ++ [ReqListsFilter contoso (odata_eq "Title" "Documents");
                      ReqFoldersFilter contoso 1 (odata_eq "Name" "reports");
                      ReqFolderUpload contoso 2 "" [Byte.x7a]] /\
    remote w' = remote w0.
Proof.
  apply (upload_file_sends_given_bytes api0 "Documents" "reports" "nope.txt"
           [Byte.x7a] "" w0 docs (mkFolder 2 "reports")); try reflexivity.
  - intros H. discriminate H.
  - constructor.
Defined.
